(** * The direct SAP MCP server: protocol loop, dispatcher and error boundary

    A shallow embedding of [direct_sap_server.py] (class
    [DirectSAPMCPServer]) and the properties of its JSON-RPC envelope and
    lifecycle.

    Modelling conventions.
    - A decoded JSON document is a value of [json]; a Python [dict] obtained
      from [json.loads] is an association list in insertion order. The keys
      of a decoded dictionary are pairwise distinct; nothing below relies
      on it.
    - A Python [str] is a [string] whose characters are code points below
      256, one [ascii] per character.
    - A Python [int] is a [Z]; a Python [float] is a [spec_float] read at
      binary64 ([prec = 53], [emax = 1024]).
    - A call that may raise returns an [outcome]: [Return v] or [Raise e].
      Only subclasses of [Exception] are modelled; an interrupt signal is not.
    - The standard input is the list of its lines and the standard output
      the list of the lines printed; printing does not fail.
    - Logging goes to the error stream and is left out.
    - The interpreter and the [json] module are an interface ([PyRuntime]):
      [json.loads], [json.dumps], [float.__repr__] and the text of the
      messages carried by the exceptions the interpreter itself raises.
      Limits of the interpreter on resources (recursion depth, memory, the
      digits of the text of an [int]) are seen only through the decoder,
      which may fail with an exception of its own. *)

From Stdlib Require Import List String Ascii ZArith Bool Lia.
From Stdlib Require Import DecimalString.
From Stdlib Require Import Floats.SpecFloat.
Import ListNotations.

#[local] Set Warnings "-register-all".
Local Open Scope string_scope.
Local Open Scope Z_scope.

(** ** Python values *)

Module Py.

Inductive json : Type :=
| JNull
| JBool (b : bool)
| JInt (z : Z)
| JFloat (f : spec_float)
| JStr (s : string)
| JList (l : list json)
| JDict (kvs : list (string * json)).

(** [type(v).__name__] *)
Inductive pytype := TNone | TBool | TInt | TFloat | TStr | TList | TDict.

Definition type_of (v : json) : pytype :=
  match v with
  | JNull => TNone
  | JBool _ => TBool
  | JInt _ => TInt
  | JFloat _ => TFloat
  | JStr _ => TStr
  | JList _ => TList
  | JDict _ => TDict
  end.

(** [isinstance(v, dict)] *)
Definition is_dict (v : json) : bool :=
  match v with JDict _ => true | _ => false end.

(** Exceptions raised by the interpreter on the values above. *)
Inductive builtin_error :=
| NoAttribute (t : pytype) (attr : string)   (* AttributeError *)
| NotIterable (t : pytype)                   (* TypeError *)
| NotAnInteger (t : pytype)                  (* TypeError, argument of range *)
| UnsupportedAdd (a b : pytype)              (* TypeError *)
| Unhashable (t : pytype)                    (* TypeError *)
| IntTooLargeForFloat.                       (* OverflowError *)

Inductive pyexn :=
| ValueError (msg : string)
| Builtin (e : builtin_error).

Inductive outcome (A : Type) : Type :=
| Return (a : A)
| Raise (e : pyexn).
Arguments Return {A} a.
Arguments Raise {A} e.

Definition bind {A B : Type} (m : outcome A) (k : A -> outcome B) : outcome B :=
  match m with
  | Return a => k a
  | Raise e => Raise e
  end.

Notation "x <- m ;; k" := (bind m (fun x => k))
  (at level 61, m at next level, right associativity).

(** Sequential evaluation of [f] over a list, stopping at the first raise. *)
Fixpoint mapM {A B : Type} (f : A -> outcome B) (l : list A) : outcome (list B) :=
  match l with
  | [] => Return []
  | a :: l' => b <- f a ;; bs <- mapM f l' ;; Return (b :: bs)
  end.

(** *** Dictionaries *)

Fixpoint dict_get (kvs : list (string * json)) (key : string) : option json :=
  match kvs with
  | [] => None
  | (k, v) :: rest => if String.eqb k key then Some v else dict_get rest key
  end.

(** [d.get(key, default)] on a dictionary *)
Definition dict_get_or (kvs : list (string * json)) (key : string) (default : json)
  : json :=
  match dict_get kvs key with
  | Some v => v
  | None => default
  end.

(** [obj.get(key, default)]: only a [dict] has the attribute [get]. *)
Definition py_get (obj : json) (key : string) (default : json) : outcome json :=
  match obj with
  | JDict kvs => Return (dict_get_or kvs key default)
  | _ => Raise (Builtin (NoAttribute (type_of obj) "get"))
  end.

(** [v == s] for a string literal [s] *)
Definition eq_str (v : json) (s : string) : bool :=
  match v with JStr t => String.eqb t s | _ => false end.

(** Truth value of an object, as tested by [if v:] *)
Definition truthy (v : json) : bool :=
  match v with
  | JNull => false
  | JBool b => b
  | JInt z => negb (z =? 0)
  | JFloat (S754_zero _) => false
  | JFloat _ => true
  | JStr s => negb (String.eqb s "")
  | JList l => match l with [] => false | _ => true end
  | JDict kvs => match kvs with [] => false | _ => true end
  end.

(** *** Text *)

(** [sep.join(parts)] *)
Fixpoint join (sep : string) (parts : list string) : string :=
  match parts with
  | [] => ""
  | [p] => p
  | p :: rest => p ++ sep ++ join sep rest
  end.

(** [str(z)] for an [int] *)
Definition int_str (z : Z) : string := NilZero.string_of_int (Z.to_int z).

Definition hex_digit (n : N) : ascii :=
  if (n <? 10)%N then ascii_of_N (48 + n) else ascii_of_N (87 + n).

Definition dquote : ascii := "034"%char.
Definition squote : ascii := "039"%char.
Definition backslash : ascii := "092"%char.

Fixpoint contains_char (c : ascii) (s : string) : bool :=
  match s with
  | EmptyString => false
  | String d rest => Ascii.eqb c d || contains_char c rest
  end.

(** Characters [repr] writes as they are: the printable ones. Below 256
    these are 32..126 and 161..255 except the soft hyphen 173. *)
Definition printable (c : ascii) : bool :=
  let n := N_of_ascii c in
  ((32 <=? n) && (n <=? 126) || (161 <=? n) && negb (n =? 173))%N.

Definition repr_char (quote c : ascii) : string :=
  if Ascii.eqb c quote || Ascii.eqb c backslash then String backslash (String c "")
  else if Ascii.eqb c "009"%char then String backslash "t"
  else if Ascii.eqb c "010"%char then String backslash "n"
  else if Ascii.eqb c "013"%char then String backslash "r"
  else if printable c then String c ""
  else
    let n := N_of_ascii c in
    String backslash
      (String "x" (String (hex_digit (n / 16)) (String (hex_digit (n mod 16)) ""))).

Fixpoint repr_chars (quote : ascii) (s : string) : string :=
  match s with
  | EmptyString => ""
  | String c rest => repr_char quote c ++ repr_chars quote rest
  end.

(** [repr(s)] for a [str]: single quotes, unless the text holds a single
    quote and no double quote. *)
Definition str_repr (s : string) : string :=
  let quote :=
    if contains_char squote s && negb (contains_char dquote s)
    then dquote else squote in
  String quote (repr_chars quote s ++ String quote "").

(** Whitespace as [str.isspace] sees it, below 256. *)
Definition is_space (c : ascii) : bool :=
  let n := N_of_ascii c in
  ((9 <=? n) && (n <=? 13) || (28 <=? n) && (n <=? 32)
   || (n =? 133) || (n =? 160))%N.

Fixpoint lstrip (s : string) : string :=
  match s with
  | EmptyString => ""
  | String c rest => if is_space c then lstrip rest else s
  end.

(** Drop trailing whitespace: a character is kept when it is not a space or
    when something is kept after it. *)
Fixpoint rstrip (s : string) : string :=
  match s with
  | EmptyString => ""
  | String c rest =>
      match rstrip rest with
      | EmptyString => if is_space c then "" else String c ""
      | kept => String c kept
      end
  end.

(** [s.strip()] *)
Definition strip (s : string) : string := rstrip (lstrip s).

(** *** Numbers *)

(** [float(z)]: the nearest binary64 value, ties to even; an [int] beyond
    the range raises [OverflowError]. *)
Definition int_to_float (z : Z) : outcome spec_float :=
  match binary_normalize 53 1024 z 0 false with
  | S754_infinity _ => Raise (Builtin IntTooLargeForFloat)
  | f => Return f
  end.

Definition bool_int (b : bool) : Z := if b then 1 else 0.

(** [a + b] *)
Definition py_add (a b : json) : outcome json :=
  let as_int v :=
    match v with
    | JInt z => Some z
    | JBool c => Some (bool_int c)
    | _ => None
    end in
  match as_int a, as_int b, a, b with
  | Some x, Some y, _, _ => Return (JInt (x + y))
  | Some x, None, _, JFloat g =>
      f <- int_to_float x ;; Return (JFloat (SFadd 53 1024 f g))
  | None, Some y, JFloat f, _ =>
      g <- int_to_float y ;; Return (JFloat (SFadd 53 1024 f g))
  | None, None, JFloat f, JFloat g => Return (JFloat (SFadd 53 1024 f g))
  | None, None, JStr s, JStr t => Return (JStr (s ++ t))
  | None, None, JList l, JList m => Return (JList (l ++ m))
  | _, _, _, _ => Raise (Builtin (UnsupportedAdd (type_of a) (type_of b)))
  end.

(** [operator.index(v)], as [range] applies it to its arguments *)
Definition py_index (v : json) : outcome Z :=
  match v with
  | JInt z => Return z
  | JBool b => Return (bool_int b)
  | _ => Raise (Builtin (NotAnInteger (type_of v)))
  end.

(** The integers of [range(start, stop)], in order. *)
Definition range_list (start stop : Z) : list Z :=
  map (fun k => start + Z.of_nat k) (seq 0 (Z.to_nat (stop - start))).

(** [range(start, stop)]: [start] is checked before [stop]. *)
Definition py_range (start stop : json) : outcome (list Z) :=
  a <- py_index start ;; b <- py_index stop ;; Return (range_list a b).

(** *** Iteration *)

Fixpoint chars (s : string) : list json :=
  match s with
  | EmptyString => []
  | String c rest => JStr (String c "") :: chars rest
  end.

(** The items [iter(v)] yields: the elements of a list, the characters of a
    string, the keys of a dictionary. *)
Definition py_iter (v : json) : outcome (list json) :=
  match v with
  | JList l => Return l
  | JStr s => Return (chars s)
  | JDict kvs => Return (map (fun kv => JStr (fst kv)) kvs)
  | _ => Raise (Builtin (NotIterable (type_of v)))
  end.

(** *** Keys of a dictionary built by the program *)

(** [hash(v)] succeeds on everything but lists and dictionaries. *)
Definition py_hashable (v : json) : outcome unit :=
  match v with
  | JList _ | JDict _ => Raise (Builtin (Unhashable (type_of v)))
  | _ => Return tt
  end.

(** [f == z] for a [float] and an [int], compared exactly. *)
Definition float_eq_int (f : spec_float) (z : Z) : bool :=
  match f with
  | S754_zero _ => z =? 0
  | S754_finite s m e =>
      let v := if s then Z.neg m else Z.pos m in
      if 0 <=? e then z =? v * 2 ^ e else z * 2 ^ (- e) =? v
  | _ => false
  end.

(** Whether two hashable values are the same dictionary key. Numbers compare
    by value across [bool], [int] and [float]. Every NaN decoded by
    [json.loads] is the one object [json.decoder.NaN], and a dictionary
    compares keys by identity before equality, so NaN meets NaN. *)
Definition same_key (a b : json) : bool :=
  let as_int v :=
    match v with
    | JInt z => Some z
    | JBool c => Some (bool_int c)
    | _ => None
    end in
  match as_int a, as_int b, a, b with
  | Some x, Some y, _, _ => x =? y
  | Some x, None, _, JFloat g => float_eq_int g x
  | None, Some y, JFloat f, _ => float_eq_int f y
  | None, None, JFloat S754_nan, JFloat S754_nan => true
  | None, None, JFloat f, JFloat g => SFeqb f g
  | None, None, JStr s, JStr t => String.eqb s t
  | None, None, JNull, JNull => true
  | _, _, _, _ => false
  end.

(** [d[k] = v] on a dictionary kept in insertion order: an equal key keeps
    its place and its first spelling, and takes the new value. *)
Fixpoint dict_set {V : Type} (d : list (json * V)) (k : json) (v : V)
  : list (json * V) :=
  match d with
  | [] => [(k, v)]
  | (k', v') :: rest =>
      if same_key k' k then (k', v) :: rest else (k', v') :: dict_set rest k v
  end.

End Py.
Import Py.

(** ** The interpreter and the [json] module *)

(** What [json.loads(line)] does: it returns the decoded document, raises
    [json.JSONDecodeError] on text that is not JSON, or raises another
    exception (the nesting of the text exceeds the recursion limit, an
    integer has more digits than the interpreter converts). *)
Inductive loads_result :=
| Loaded (v : json)
| JSONDecodeError
| LoadsFailed.

(** [loads_empty]: the empty text is not a JSON document. *)
Class PyRuntime := {
  json_loads : string -> loads_result;
  json_dumps : json -> string;
  float_repr : spec_float -> string;
  builtin_msg : builtin_error -> string;
  loads_empty : json_loads "" = JSONDecodeError
}.

Section Formatting.
Context `{PyRuntime}.

(** [repr(v)] *)
Fixpoint py_repr (v : json) : string :=
  match v with
  | JNull => "None"
  | JBool true => "True"
  | JBool false => "False"
  | JInt z => int_str z
  | JFloat f => float_repr f
  | JStr s => str_repr s
  | JList l => "[" ++ join ", " (map py_repr l) ++ "]"
  | JDict kvs =>
      "{" ++ join ", "
               (map (fun kv => str_repr (fst kv) ++ ": " ++ py_repr (snd kv)) kvs)
          ++ "}"
  end.

(** [str(v)], which is what a replacement field [{v}] of an f-string writes. *)
Definition py_str (v : json) : string :=
  match v with
  | JStr s => s
  | _ => py_repr v
  end.

(** [str(e)] for a caught exception *)
Definition exn_str (e : pyexn) : string :=
  match e with
  | ValueError msg => msg
  | Builtin b => builtin_msg b
  end.

End Formatting.

(** ** The server *)

Module DirectSAPMCPServer.

Record server := { initialized : bool }.

(** [__init__] *)
Definition new_server : server := {| initialized := false |}.

Section Handlers.
Context `{PyRuntime}.

Definition handle_initialize (params : json) : outcome json :=
  if negb (is_dict params) then Raise (ValueError "params must be a dictionary")
  else
    protocol_version <- py_get params "protocolVersion" (JStr "2024-11-05") ;;
    client_capabilities <- py_get params "capabilities" (JDict []) ;;
    client_info <- py_get params "clientInfo" (JDict []) ;;
    Return
      (JDict
         [("protocolVersion", JStr "2024-11-05");
          ("capabilities", JDict [("tools", JDict []); ("resources", JDict [])]);
          ("serverInfo",
           JDict [("name", JStr "sap-automation"); ("version", JStr "1.0.0")])]).

(** The list [tools] of [handle_tools_list]. The function builds it anew
    at each call, so no caller shares it with another. *)
Definition tools : list json :=
  [JDict
      [("name", JStr "sap_connect");
       ("description", JStr "Connect to SAP system with credentials");
       ("inputSchema", JDict
          [("type", JStr "object");
           ("properties", JDict
              [("system_id", JDict [("type", JStr "string"); ("description", JStr "SAP system ID")]);
               ("client", JDict [("type", JStr "string"); ("description", JStr "SAP client number")]);
               ("username", JDict [("type", JStr "string"); ("description", JStr "Username")]);
               ("password", JDict [("type", JStr "string"); ("description", JStr "Password")]);
               ("server", JDict [("type", JStr "string"); ("description", JStr "SAP server address")]);
               ("instance", JDict [("type", JStr "string"); ("description", JStr "Instance number"); ("default", JStr "00")]);
               ("language", JDict [("type", JStr "string"); ("description", JStr "Login language"); ("default", JStr "EN")])]);
           ("required", JList [JStr "system_id"; JStr "client"; JStr "username"; JStr "password"; JStr "server"])])];
   JDict
      [("name", JStr "sap_disconnect");
       ("description", JStr "Disconnect from SAP system");
       ("inputSchema", JDict
          [("type", JStr "object");
           ("properties", JDict
              [("session_id", JDict [("type", JStr "string"); ("description", JStr "Session ID to disconnect")])]);
           ("required", JList [])])];
   JDict
      [("name", JStr "sap_get_sessions");
       ("description", JStr "Get list of active SAP sessions");
       ("inputSchema", JDict [("type", JStr "object"); ("properties", JDict []); ("required", JList [])])];
   JDict
      [("name", JStr "sap_navigate");
       ("description", JStr "Navigate to SAP transaction");
       ("inputSchema", JDict
          [("type", JStr "object");
           ("properties", JDict
              [("transaction_code", JDict
                  [("type", JStr "string");
                   ("description", JStr "Transaction code (e.g., VA01, MM01, SE80)")]);
               ("session_id", JDict [("type", JStr "string"); ("description", JStr "Session ID"); ("default", JStr "default")])]);
           ("required", JList [JStr "transaction_code"])])];
   JDict
      [("name", JStr "sap_navigate_back");
       ("description", JStr "Navigate back in SAP (F3 equivalent)");
       ("inputSchema", JDict
          [("type", JStr "object");
           ("properties", JDict
              [("session_id", JDict [("type", JStr "string"); ("description", JStr "Session ID"); ("default", JStr "default")])]);
           ("required", JList [])])];
   JDict
      [("name", JStr "sap_navigate_exit");
       ("description", JStr "Exit current transaction (F15 equivalent)");
       ("inputSchema", JDict
          [("type", JStr "object");
           ("properties", JDict
              [("session_id", JDict [("type", JStr "string"); ("description", JStr "Session ID"); ("default", JStr "default")])]);
           ("required", JList [])])];
   JDict
      [("name", JStr "sap_input_field");
       ("description", JStr "Input data into a specific SAP field");
       ("inputSchema", JDict
          [("type", JStr "object");
           ("properties", JDict
              [("field_id", JDict [("type", JStr "string"); ("description", JStr "Field ID or name")]);
               ("value", JDict [("type", JStr "string"); ("description", JStr "Value to input")]);
               ("session_id", JDict [("type", JStr "string"); ("description", JStr "Session ID"); ("default", JStr "default")])]);
           ("required", JList [JStr "field_id"; JStr "value"])])];
   JDict
      [("name", JStr "sap_get_field_value");
       ("description", JStr "Get value from a specific SAP field");
       ("inputSchema", JDict
          [("type", JStr "object");
           ("properties", JDict
              [("field_id", JDict [("type", JStr "string"); ("description", JStr "Field ID or name")]);
               ("session_id", JDict [("type", JStr "string"); ("description", JStr "Session ID"); ("default", JStr "default")])]);
           ("required", JList [JStr "field_id"])])];
   JDict
      [("name", JStr "sap_clear_field");
       ("description", JStr "Clear a specific SAP field");
       ("inputSchema", JDict
          [("type", JStr "object");
           ("properties", JDict
              [("field_id", JDict [("type", JStr "string"); ("description", JStr "Field ID or name")]);
               ("session_id", JDict [("type", JStr "string"); ("description", JStr "Session ID"); ("default", JStr "default")])]);
           ("required", JList [JStr "field_id"])])];
   JDict
      [("name", JStr "sap_press_button");
       ("description", JStr "Press a button in SAP GUI");
       ("inputSchema", JDict
          [("type", JStr "object");
           ("properties", JDict
              [("button_id", JDict [("type", JStr "string"); ("description", JStr "Button ID or name")]);
               ("session_id", JDict [("type", JStr "string"); ("description", JStr "Session ID"); ("default", JStr "default")])]);
           ("required", JList [JStr "button_id"])])];
   JDict
      [("name", JStr "sap_select_menu");
       ("description", JStr "Select menu item in SAP GUI");
       ("inputSchema", JDict
          [("type", JStr "object");
           ("properties", JDict
              [("menu_path", JDict
                  [("type", JStr "string");
                   ("description", JStr "Menu path (e.g., 'System->User Profile->Own Data')")]);
               ("session_id", JDict [("type", JStr "string"); ("description", JStr "Session ID"); ("default", JStr "default")])]);
           ("required", JList [JStr "menu_path"])])];
   JDict
      [("name", JStr "sap_send_key");
       ("description", JStr "Send function key or key combination");
       ("inputSchema", JDict
          [("type", JStr "object");
           ("properties", JDict
              [("key", JDict
                  [("type", JStr "string");
                   ("description", JStr "Key to send (F1-F24, Enter, Escape, etc.)")]);
               ("session_id", JDict [("type", JStr "string"); ("description", JStr "Session ID"); ("default", JStr "default")])]);
           ("required", JList [JStr "key"])])];
   JDict
      [("name", JStr "sap_get_table_data");
       ("description", JStr "Extract data from SAP table/grid");
       ("inputSchema", JDict
          [("type", JStr "object");
           ("properties", JDict
              [("table_id", JDict [("type", JStr "string"); ("description", JStr "Table/grid ID")]);
               ("row_start", JDict
                  [("type", JStr "integer");
                   ("description", JStr "Starting row (0-based)");
                   ("default", JInt 0)]);
               ("row_count", JDict
                  [("type", JStr "integer");
                   ("description", JStr "Number of rows to extract");
                   ("default", JInt 10)]);
               ("columns", JDict
                  [("type", JStr "array");
                   ("items", JDict [("type", JStr "string")]);
                   ("description", JStr "Specific columns to extract (optional)")]);
               ("session_id", JDict [("type", JStr "string"); ("description", JStr "Session ID"); ("default", JStr "default")])]);
           ("required", JList [JStr "table_id"])])];
   JDict
      [("name", JStr "sap_set_table_cell");
       ("description", JStr "Set value in specific table cell");
       ("inputSchema", JDict
          [("type", JStr "object");
           ("properties", JDict
              [("table_id", JDict [("type", JStr "string"); ("description", JStr "Table/grid ID")]);
               ("row", JDict [("type", JStr "integer"); ("description", JStr "Row number (0-based)")]);
               ("column", JDict [("type", JStr "string"); ("description", JStr "Column name or ID")]);
               ("value", JDict [("type", JStr "string"); ("description", JStr "Value to set")]);
               ("session_id", JDict [("type", JStr "string"); ("description", JStr "Session ID"); ("default", JStr "default")])]);
           ("required", JList [JStr "table_id"; JStr "row"; JStr "column"; JStr "value"])])];
   JDict
      [("name", JStr "sap_select_table_row");
       ("description", JStr "Select row(s) in SAP table");
       ("inputSchema", JDict
          [("type", JStr "object");
           ("properties", JDict
              [("table_id", JDict [("type", JStr "string"); ("description", JStr "Table/grid ID")]);
               ("row", JDict [("type", JStr "integer"); ("description", JStr "Row number (0-based)")]);
               ("multi_select", JDict
                  [("type", JStr "boolean");
                   ("description", JStr "Allow multiple selection");
                   ("default", JBool false)]);
               ("session_id", JDict [("type", JStr "string"); ("description", JStr "Session ID"); ("default", JStr "default")])]);
           ("required", JList [JStr "table_id"; JStr "row"])])];
   JDict
      [("name", JStr "sap_get_screen_info");
       ("description", JStr "Get current screen information");
       ("inputSchema", JDict
          [("type", JStr "object");
           ("properties", JDict
              [("session_id", JDict [("type", JStr "string"); ("description", JStr "Session ID"); ("default", JStr "default")])]);
           ("required", JList [])])];
   JDict
      [("name", JStr "sap_get_status_message");
       ("description", JStr "Get current status bar message");
       ("inputSchema", JDict
          [("type", JStr "object");
           ("properties", JDict
              [("session_id", JDict [("type", JStr "string"); ("description", JStr "Session ID"); ("default", JStr "default")])]);
           ("required", JList [])])];
   JDict
      [("name", JStr "sap_screenshot");
       ("description", JStr "Take screenshot of SAP screen");
       ("inputSchema", JDict
          [("type", JStr "object");
           ("properties", JDict
              [("filename", JDict
                  [("type", JStr "string");
                   ("description", JStr "Output filename");
                   ("default", JStr "sap_screenshot.png")]);
               ("session_id", JDict [("type", JStr "string"); ("description", JStr "Session ID"); ("default", JStr "default")])]);
           ("required", JList [])])];
   JDict
      [("name", JStr "sap_execute_transaction");
       ("description", JStr "Execute complete transaction with multiple steps");
       ("inputSchema", JDict
          [("type", JStr "object");
           ("properties", JDict
              [("transaction_code", JDict [("type", JStr "string"); ("description", JStr "Transaction to execute")]);
               ("steps", JDict
                  [("type", JStr "array");
                   ("items", JDict
                      [("type", JStr "object");
                       ("properties", JDict
                          [("action", JDict
                              [("type", JStr "string");
                               ("description", JStr "Action type (input, button, key)")]);
                           ("target", JDict [("type", JStr "string"); ("description", JStr "Target field/button ID")]);
                           ("value", JDict [("type", JStr "string"); ("description", JStr "Value (for input actions)")])])]);
                   ("description", JStr "List of steps to execute")]);
               ("session_id", JDict [("type", JStr "string"); ("description", JStr "Session ID"); ("default", JStr "default")])]);
           ("required", JList [JStr "transaction_code"; JStr "steps"])])];
   JDict
      [("name", JStr "sap_wait_for_screen");
       ("description", JStr "Wait for specific screen to load");
       ("inputSchema", JDict
          [("type", JStr "object");
           ("properties", JDict
              [("screen_id", JDict [("type", JStr "string"); ("description", JStr "Screen ID to wait for")]);
               ("timeout", JDict
                  [("type", JStr "integer");
                   ("description", JStr "Timeout in seconds");
                   ("default", JInt 30)]);
               ("session_id", JDict [("type", JStr "string"); ("description", JStr "Session ID"); ("default", JStr "default")])]);
           ("required", JList [JStr "screen_id"])])];
   JDict
      [("name", JStr "sap_export_data");
       ("description", JStr "Export SAP data to file");
       ("inputSchema", JDict
          [("type", JStr "object");
           ("properties", JDict
              [("data_source", JDict [("type", JStr "string"); ("description", JStr "Data source (table, screen, etc.)")]);
               ("format", JDict
                  [("type", JStr "string");
                   ("description", JStr "Export format");
                   ("enum", JList [JStr "csv"; JStr "xlsx"; JStr "txt"; JStr "xml"])]);
               ("filename", JDict [("type", JStr "string"); ("description", JStr "Output filename")]);
               ("session_id", JDict [("type", JStr "string"); ("description", JStr "Session ID"); ("default", JStr "default")])]);
           ("required", JList [JStr "data_source"; JStr "format"; JStr "filename"])])];
   JDict
      [("name", JStr "sap_import_data");
       ("description", JStr "Import data into SAP from file");
       ("inputSchema", JDict
          [("type", JStr "object");
           ("properties", JDict
              [("filename", JDict [("type", JStr "string"); ("description", JStr "Input filename")]);
               ("target", JDict [("type", JStr "string"); ("description", JStr "Target field or table")]);
               ("mapping", JDict [("type", JStr "object"); ("description", JStr "Field mapping configuration")]);
               ("session_id", JDict [("type", JStr "string"); ("description", JStr "Session ID"); ("default", JStr "default")])]);
           ("required", JList [JStr "filename"; JStr "target"])])]].

Definition handle_tools_list : json := JDict [("tools", JList tools)].

(** The dictionary comprehension [{col: f"{col}_VALUE_{i}" for col in columns}],
    over the items [columns] yields. *)
Fixpoint fill_row (i : Z) (cols : list json) (row : list (json * string))
  : outcome (list (json * string)) :=
  match cols with
  | [] => Return row
  | col :: rest =>
      let value := py_str col ++ "_VALUE_" ++ int_str i in
      _ <- py_hashable col ;;
      fill_row i rest (dict_set row col value)
  end.

Definition make_row (columns : json) (i : Z) : outcome (list (json * string)) :=
  cols <- py_iter columns ;; fill_row i cols [].

(** [repr] of such a row, and of the list of rows *)
Definition row_repr (row : list (json * string)) : string :=
  "{" ++ join ", " (map (fun kv => py_repr (fst kv) ++ ": " ++ str_repr (snd kv)) row)
      ++ "}".

Definition rows_repr (rows : list (list (json * string))) : string :=
  "[" ++ join ", " (map row_repr rows) ++ "]".

(** [enumerate(items)] *)
Definition enumerate {A : Type} (items : list A) : list (Z * A) :=
  combine (map Z.of_nat (seq 0 (List.length items))) items.

(** One turn of the loop of [sap_execute_transaction] *)
Definition step_text (i_step : Z * json) : outcome string :=
  let (i, step) := i_step in
  action <- py_get step "action" (JStr "unknown") ;;
  target <- py_get step "target" (JStr "unknown") ;;
  value <- py_get step "value" (JStr "") ;;
  Return ("Step " ++ int_str (i + 1) ++ ": " ++ py_str action ++ " on "
            ++ py_str target ++ " with '" ++ py_str value ++ "'").

(** The chain of [if]/[elif] of [handle_tool_call]: the text of the result. *)
Definition result_text (tool_name arguments : json) : outcome string :=
  (* Connection & Session Management *)
  if eq_str tool_name "sap_connect" then
    system_id <- py_get arguments "system_id" (JStr "DEV") ;;
    client <- py_get arguments "client" (JStr "100") ;;
    username <- py_get arguments "username" (JStr "user") ;;
    server <- py_get arguments "server" (JStr "localhost") ;;
    language <- py_get arguments "language" (JStr "EN") ;;
    Return ("Successfully connected to SAP system " ++ py_str system_id
              ++ " client " ++ py_str client ++ " on server " ++ py_str server
              ++ " with language " ++ py_str language)
  else if eq_str tool_name "sap_disconnect" then
    session_id <- py_get arguments "session_id" (JStr "default") ;;
    Return ("Successfully disconnected from SAP session " ++ py_str session_id)
  else if eq_str tool_name "sap_get_sessions" then
    let sessions := ["Session[0] - DEV/100"; "Session[1] - QAS/100"] in
    Return ("Active SAP sessions: " ++ join ", " sessions)
  (* Navigation & Transaction Management *)
  else if eq_str tool_name "sap_navigate" then
    tcode <- py_get arguments "transaction_code" (JStr "UNKNOWN") ;;
    session_id <- py_get arguments "session_id" (JStr "default") ;;
    Return ("Successfully navigated to transaction " ++ py_str tcode
              ++ " in session " ++ py_str session_id)
  else if eq_str tool_name "sap_navigate_back" then
    session_id <- py_get arguments "session_id" (JStr "default") ;;
    Return ("Navigated back (F3) in session " ++ py_str session_id)
  else if eq_str tool_name "sap_navigate_exit" then
    session_id <- py_get arguments "session_id" (JStr "default") ;;
    Return ("Exited transaction (F15) in session " ++ py_str session_id)
  (* Field Operations *)
  else if eq_str tool_name "sap_input_field" then
    field_id <- py_get arguments "field_id" (JStr "FIELD") ;;
    value <- py_get arguments "value" (JStr "") ;;
    session_id <- py_get arguments "session_id" (JStr "default") ;;
    Return ("Successfully input '" ++ py_str value ++ "' into field '"
              ++ py_str field_id ++ "' in session " ++ py_str session_id)
  else if eq_str tool_name "sap_get_field_value" then
    field_id <- py_get arguments "field_id" (JStr "FIELD") ;;
    session_id <- py_get arguments "session_id" (JStr "default") ;;
    let mock_value := "VALUE_FROM_" ++ py_str field_id in
    Return ("Field '" ++ py_str field_id ++ "' value: '" ++ mock_value
              ++ "' in session " ++ py_str session_id)
  else if eq_str tool_name "sap_clear_field" then
    field_id <- py_get arguments "field_id" (JStr "FIELD") ;;
    session_id <- py_get arguments "session_id" (JStr "default") ;;
    Return ("Successfully cleared field '" ++ py_str field_id
              ++ "' in session " ++ py_str session_id)
  (* Button & Menu Operations *)
  else if eq_str tool_name "sap_press_button" then
    button_id <- py_get arguments "button_id" (JStr "BUTTON") ;;
    session_id <- py_get arguments "session_id" (JStr "default") ;;
    Return ("Successfully pressed button '" ++ py_str button_id
              ++ "' in session " ++ py_str session_id)
  else if eq_str tool_name "sap_select_menu" then
    menu_path <- py_get arguments "menu_path" (JStr "Menu->Item") ;;
    session_id <- py_get arguments "session_id" (JStr "default") ;;
    Return ("Successfully selected menu '" ++ py_str menu_path
              ++ "' in session " ++ py_str session_id)
  (* Function Key Operations *)
  else if eq_str tool_name "sap_send_key" then
    key <- py_get arguments "key" (JStr "Enter") ;;
    session_id <- py_get arguments "session_id" (JStr "default") ;;
    Return ("Successfully sent key '" ++ py_str key ++ "' in session "
              ++ py_str session_id)
  (* Table Operations *)
  else if eq_str tool_name "sap_get_table_data" then
    table_id <- py_get arguments "table_id" (JStr "TABLE") ;;
    row_start <- py_get arguments "row_start" (JInt 0) ;;
    row_count <- py_get arguments "row_count" (JInt 10) ;;
    columns <- py_get arguments "columns"
                 (JList [JStr "COL1"; JStr "COL2"; JStr "COL3"]) ;;
    session_id <- py_get arguments "session_id" (JStr "default") ;;
    stop <- py_add row_start row_count ;;
    indices <- py_range row_start stop ;;
    mock_data <- mapM (make_row columns) indices ;;
    Return ("Extracted " ++ int_str (Z.of_nat (List.length mock_data))
              ++ " rows from table '" ++ py_str table_id ++ "': "
              ++ rows_repr mock_data)
  else if eq_str tool_name "sap_set_table_cell" then
    table_id <- py_get arguments "table_id" (JStr "TABLE") ;;
    row <- py_get arguments "row" (JInt 0) ;;
    column <- py_get arguments "column" (JStr "COL1") ;;
    value <- py_get arguments "value" (JStr "") ;;
    session_id <- py_get arguments "session_id" (JStr "default") ;;
    Return ("Set cell [" ++ py_str row ++ "][" ++ py_str column ++ "] = '"
              ++ py_str value ++ "' in table '" ++ py_str table_id
              ++ "' in session " ++ py_str session_id)
  else if eq_str tool_name "sap_select_table_row" then
    table_id <- py_get arguments "table_id" (JStr "TABLE") ;;
    row <- py_get arguments "row" (JInt 0) ;;
    multi_select <- py_get arguments "multi_select" (JBool false) ;;
    session_id <- py_get arguments "session_id" (JStr "default") ;;
    Return ("Selected row " ++ py_str row ++ " in table '" ++ py_str table_id
              ++ "' (multi: " ++ py_str multi_select ++ ") in session "
              ++ py_str session_id)
  (* Screen Information *)
  else if eq_str tool_name "sap_get_screen_info" then
    session_id <- py_get arguments "session_id" (JStr "default") ;;
    let screen_info :=
      JDict [("program", JStr "SAPMV45A"); ("screen", JStr "4001");
             ("transaction", JStr "VA01"); ("title", JStr "Create Sales Order")] in
    Return ("Screen info for session " ++ py_str session_id ++ ": "
              ++ py_str screen_info)
  else if eq_str tool_name "sap_get_status_message" then
    session_id <- py_get arguments "session_id" (JStr "default") ;;
    let status_msg := "Document saved successfully" in
    Return ("Status message in session " ++ py_str session_id ++ ": '"
              ++ status_msg ++ "'")
  (* Screenshot & Visual *)
  else if eq_str tool_name "sap_screenshot" then
    filename <- py_get arguments "filename" (JStr "sap_screenshot.png") ;;
    session_id <- py_get arguments "session_id" (JStr "default") ;;
    Return ("Screenshot saved as '" ++ py_str filename ++ "' from session "
              ++ py_str session_id)
  (* Advanced Operations *)
  else if eq_str tool_name "sap_execute_transaction" then
    tcode <- py_get arguments "transaction_code" (JStr "VA01") ;;
    steps <- py_get arguments "steps" (JList []) ;;
    session_id <- py_get arguments "session_id" (JStr "default") ;;
    items <- py_iter steps ;;
    executed_steps <- mapM step_text (enumerate items) ;;
    (* [len(steps)]: [steps] was iterated, and its length is that of its items *)
    Return ("Executed transaction " ++ py_str tcode ++ " with "
              ++ int_str (Z.of_nat (List.length items)) ++ " steps: "
              ++ join "; " executed_steps)
  else if eq_str tool_name "sap_wait_for_screen" then
    screen_id <- py_get arguments "screen_id" (JStr "SCREEN") ;;
    timeout <- py_get arguments "timeout" (JInt 30) ;;
    session_id <- py_get arguments "session_id" (JStr "default") ;;
    Return ("Successfully waited for screen '" ++ py_str screen_id
              ++ "' (timeout: " ++ py_str timeout ++ "s) in session "
              ++ py_str session_id)
  (* Export & Import *)
  else if eq_str tool_name "sap_export_data" then
    data_source <- py_get arguments "data_source" (JStr "TABLE") ;;
    format_type <- py_get arguments "format" (JStr "csv") ;;
    filename <- py_get arguments "filename" (JStr "export.csv") ;;
    session_id <- py_get arguments "session_id" (JStr "default") ;;
    Return ("Exported data from '" ++ py_str data_source ++ "' to '"
              ++ py_str filename ++ "' in " ++ py_str format_type
              ++ " format from session " ++ py_str session_id)
  else if eq_str tool_name "sap_import_data" then
    filename <- py_get arguments "filename" (JStr "import.csv") ;;
    target <- py_get arguments "target" (JStr "TABLE") ;;
    mapping <- py_get arguments "mapping" (JDict []) ;;
    session_id <- py_get arguments "session_id" (JStr "default") ;;
    Return ("Imported data from '" ++ py_str filename ++ "' to '"
              ++ py_str target ++ "' with mapping " ++ py_str mapping
              ++ " in session " ++ py_str session_id)
  else
    Return ("Unknown SAP tool: " ++ py_str tool_name
              ++ ". Available tools: sap_connect, sap_navigate, sap_input_field, sap_get_table_data, etc.").

Definition handle_tool_call (params : json) : outcome json :=
  tool_name <- py_get params "name" JNull ;;
  arguments <- py_get params "arguments" (JDict []) ;;
  text <- result_text tool_name arguments ;;
  Return
    (JDict [("content", JList [JDict [("type", JStr "text"); ("text", JStr text)]])]).

(** The responses [handle_request] builds *)
Definition result_response (request_id result : json) : json :=
  JDict [("jsonrpc", JStr "2.0"); ("id", request_id); ("result", result)].

Definition method_not_found (request_id method : json) : json :=
  JDict
    [("jsonrpc", JStr "2.0"); ("id", request_id);
     ("error",
      JDict [("code", JInt (-32601));
             ("message", JStr ("Method not found: " ++ py_str method))])].

Definition invalid_params (request_id : json) (e : pyexn) : json :=
  JDict
    [("jsonrpc", JStr "2.0"); ("id", request_id);
     ("error",
      JDict [("code", JInt (-32602));
             ("message", JStr "Invalid request parameters");
             ("data", JStr (exn_str e))])].

(** The body of the [try] of [handle_request]: the server after it, and what
    it returned or raised. Only a completed [initialize] sets the flag. *)
Definition dispatch (self : server) (request : json)
  : server * outcome (option json) :=
  match py_get request "method" JNull with
  | Raise e => (self, Raise e)
  | Return method =>
  match py_get request "params" (JDict []) with
  | Raise e => (self, Raise e)
  | Return params =>
  match py_get request "id" JNull with
  | Raise e => (self, Raise e)
  | Return request_id =>
      if eq_str method "initialize" then
        match handle_initialize params with
        | Raise e => (self, Raise e)
        | Return result =>
            ({| initialized := true |},
             Return (Some (result_response request_id result)))
        end
      else if eq_str method "notifications/initialized" then
        (self, Return None)
      else if eq_str method "tools/list" then
        (self, Return (Some (result_response request_id handle_tools_list)))
      else if eq_str method "tools/call" then
        match handle_tool_call params with
        | Raise e => (self, Raise e)
        | Return result =>
            (self, Return (Some (result_response request_id result)))
        end
      else
        (self, Return (Some (method_not_found request_id method)))
  end end end.

(** [handle_request]: the [try] and its [except Exception as e], whose own
    [request.get("id")] may raise in turn. *)
Definition handle_request (self : server) (request : json)
  : server * outcome (option json) :=
  match dispatch self request with
  | (self', Return response) => (self', Return response)
  | (self', Raise e) =>
      (self', request_id <- py_get request "id" JNull ;;
              Return (Some (invalid_params request_id e)))
  end.

(** The response [run] writes for a line that does not decode *)
Definition parse_error : json :=
  JDict
    [("jsonrpc", JStr "2.0"); ("id", JNull);
     ("error", JDict [("code", JInt (-32700)); ("message", JStr "Parse error")])].

(** One turn of the loop of [run]: the server after it and the lines
    written to the standard output, one for each [print]. *)
Definition run_line (self : server) (line : string) : server * list string :=
  let line := strip line in
  if String.eqb line "" then (self, [])
  else
    match json_loads line with
    | Loaded request =>
        match handle_request self request with
        | (self', Return (Some response)) =>
            if truthy response then (self', [json_dumps response])
            else (self', [])
        | (self', Return None) => (self', [])
        | (self', Raise _) => (self', [])      (* except Exception *)
        end
    | JSONDecodeError => (self, [json_dumps parse_error])
    | LoadsFailed => (self, [])                 (* except Exception *)
    end.

(** [run]: the loop over the lines of the standard input. *)
Fixpoint run (self : server) (stdin : list string) : server * list string :=
  match stdin with
  | [] => (self, [])
  | line :: rest =>
      let (self', written) := run_line self line in
      let (self'', written') := run self' rest in
      (self'', (written ++ written')%list)
  end.

(** [main]: a new server, run over the standard input. *)
Definition main (stdin : list string) : server * list string :=
  run new_server stdin.

End Handlers.

End DirectSAPMCPServer.
Import DirectSAPMCPServer.

(** ** A runtime to evaluate the model on sample lines

    [Samples.runtime] decodes the sample lines below and no other text. It
    encodes as [json.dumps] does with its default separators and
    [ensure_ascii], and words the interpreter's messages as CPython 3.12
    does. Floats do not occur in the samples: the special values are
    written as Python writes them, a finite one as its exact value
    [m*2**e]. *)

Module Samples.

Definition q (s : string) : string := String dquote (s ++ String dquote "").

(** [{"jsonrpc":"2.0","method":"foo","id":7}] *)
Definition line_foo : string :=
  "{" ++ q "jsonrpc" ++ ":" ++ q "2.0" ++ "," ++ q "method" ++ ":" ++ q "foo"
      ++ "," ++ q "id" ++ ":7}".

(** [{"jsonrpc":"2.0","method":"initialize","params":{},"id":1}] *)
Definition line_initialize : string :=
  "{" ++ q "jsonrpc" ++ ":" ++ q "2.0" ++ "," ++ q "method" ++ ":"
      ++ q "initialize" ++ "," ++ q "params" ++ ":{}," ++ q "id" ++ ":1}".

(** [{"jsonrpc":"2.0","method":"initialize","params":[1],"id":1}] *)
Definition line_initialize_list : string :=
  "{" ++ q "jsonrpc" ++ ":" ++ q "2.0" ++ "," ++ q "method" ++ ":"
      ++ q "initialize" ++ "," ++ q "params" ++ ":[1]," ++ q "id" ++ ":1}".

(** [{"jsonrpc":"2.0","method":"notifications/initialized"}] *)
Definition line_initialized : string :=
  "{" ++ q "jsonrpc" ++ ":" ++ q "2.0" ++ "," ++ q "method" ++ ":"
      ++ q "notifications/initialized" ++ "}".

(** [{"jsonrpc":"2.0","method":"tools/list"}], without an [id] *)
Definition line_tools_list_no_id : string :=
  "{" ++ q "jsonrpc" ++ ":" ++ q "2.0" ++ "," ++ q "method" ++ ":"
      ++ q "tools/list" ++ "}".

(** [{"jsonrpc":"2.0","method":"tools/list","id":2}] *)
Definition line_tools_list : string :=
  "{" ++ q "jsonrpc" ++ ":" ++ q "2.0" ++ "," ++ q "method" ++ ":"
      ++ q "tools/list" ++ "," ++ q "id" ++ ":2}".

(** [{"jsonrpc":"2.0","method":"tools/call","params":{"name":"sap_fly"},"id":3}] *)
Definition line_call_unknown : string :=
  "{" ++ q "jsonrpc" ++ ":" ++ q "2.0" ++ "," ++ q "method" ++ ":"
      ++ q "tools/call" ++ "," ++ q "params" ++ ":{" ++ q "name" ++ ":"
      ++ q "sap_fly" ++ "}," ++ q "id" ++ ":3}".

(** [{"jsonrpc":"2.0","method":"tools/call","params":{"name":"sap_connect","arguments":[]},"id":4}] *)
Definition line_call_bad_arguments : string :=
  "{" ++ q "jsonrpc" ++ ":" ++ q "2.0" ++ "," ++ q "method" ++ ":"
      ++ q "tools/call" ++ "," ++ q "params" ++ ":{" ++ q "name" ++ ":"
      ++ q "sap_connect" ++ "," ++ q "arguments" ++ ":[]}," ++ q "id" ++ ":4}".

(** The documents the lines decode to *)
Definition request_foo : list (string * json) :=
  [("jsonrpc", JStr "2.0"); ("method", JStr "foo"); ("id", JInt 7)].

Definition request_initialize : list (string * json) :=
  [("jsonrpc", JStr "2.0"); ("method", JStr "initialize"); ("params", JDict []);
   ("id", JInt 1)].

Definition request_initialize_list : list (string * json) :=
  [("jsonrpc", JStr "2.0"); ("method", JStr "initialize");
   ("params", JList [JInt 1]); ("id", JInt 1)].

Definition request_initialized : list (string * json) :=
  [("jsonrpc", JStr "2.0"); ("method", JStr "notifications/initialized")].

Definition request_tools_list_no_id : list (string * json) :=
  [("jsonrpc", JStr "2.0"); ("method", JStr "tools/list")].

Definition request_tools_list : list (string * json) :=
  [("jsonrpc", JStr "2.0"); ("method", JStr "tools/list"); ("id", JInt 2)].

Definition params_call_unknown : list (string * json) :=
  [("name", JStr "sap_fly")].

Definition request_call_unknown : list (string * json) :=
  [("jsonrpc", JStr "2.0"); ("method", JStr "tools/call");
   ("params", JDict params_call_unknown); ("id", JInt 3)].

Definition request_call_bad_arguments : list (string * json) :=
  [("jsonrpc", JStr "2.0"); ("method", JStr "tools/call");
   ("params", JDict [("name", JStr "sap_connect"); ("arguments", JList [])]);
   ("id", JInt 4)].

Definition table : list (string * json) :=
  [(line_foo, JDict request_foo);
   (line_initialize, JDict request_initialize);
   (line_initialize_list, JDict request_initialize_list);
   (line_initialized, JDict request_initialized);
   (line_tools_list_no_id, JDict request_tools_list_no_id);
   (line_tools_list, JDict request_tools_list);
   (line_call_unknown, JDict request_call_unknown);
   (line_call_bad_arguments, JDict request_call_bad_arguments);
   ("5", JInt 5);
   ("[1]", JList [JInt 1]);
   ("null", JNull)].

Definition loads (line : string) : loads_result :=
  match dict_get table line with
  | Some v => Loaded v
  | None => JSONDecodeError
  end.

Definition float_text (f : spec_float) : string :=
  match f with
  | S754_nan => "nan"
  | S754_infinity false => "inf"
  | S754_infinity true => "-inf"
  | S754_zero false => "0.0"
  | S754_zero true => "-0.0"
  | S754_finite s m e =>
      (if s then "-" else "") ++ int_str (Z.pos m) ++ "*2**" ++ int_str e
  end.

Definition type_name (t : pytype) : string :=
  match t with
  | TNone => "NoneType"
  | TBool => "bool"
  | TInt => "int"
  | TFloat => "float"
  | TStr => "str"
  | TList => "list"
  | TDict => "dict"
  end.

Definition message (e : builtin_error) : string :=
  match e with
  | NoAttribute t attr =>
      "'" ++ type_name t ++ "' object has no attribute '" ++ attr ++ "'"
  | NotIterable t => "'" ++ type_name t ++ "' object is not iterable"
  | NotAnInteger t =>
      "'" ++ type_name t ++ "' object cannot be interpreted as an integer"
  | UnsupportedAdd TStr b =>
      "can only concatenate str (not " ++ q (type_name b) ++ ") to str"
  | UnsupportedAdd TList b =>
      "can only concatenate list (not " ++ q (type_name b) ++ ") to list"
  | UnsupportedAdd a b =>
      "unsupported operand type(s) for +: '" ++ type_name a ++ "' and '"
        ++ type_name b ++ "'"
  | Unhashable t => "unhashable type: '" ++ type_name t ++ "'"
  | IntTooLargeForFloat => "int too large to convert to float"
  end.

Definition escape_char (c : ascii) : string :=
  let n := N_of_ascii c in
  if Ascii.eqb c dquote || Ascii.eqb c backslash then String backslash (String c "")
  else if (n =? 10)%N then String backslash "n"
  else if (n =? 13)%N then String backslash "r"
  else if (n =? 9)%N then String backslash "t"
  else if (n =? 8)%N then String backslash "b"
  else if (n =? 12)%N then String backslash "f"
  else if ((32 <=? n) && (n <=? 126))%N then String c ""
  else
    String backslash
      (String "u" (String "0" (String "0"
         (String (hex_digit (n / 16)) (String (hex_digit (n mod 16)) ""))))).

Fixpoint escape (s : string) : string :=
  match s with
  | EmptyString => ""
  | String c rest => escape_char c ++ escape rest
  end.

Fixpoint dumps (v : json) : string :=
  match v with
  | JNull => "null"
  | JBool true => "true"
  | JBool false => "false"
  | JInt z => int_str z
  | JFloat S754_nan => "NaN"
  | JFloat (S754_infinity false) => "Infinity"
  | JFloat (S754_infinity true) => "-Infinity"
  | JFloat f => float_text f
  | JStr s => q (escape s)
  | JList l => "[" ++ join ", " (map dumps l) ++ "]"
  | JDict kvs =>
      "{" ++ join ", " (map (fun kv => q (escape (fst kv)) ++ ": " ++ dumps (snd kv)) kvs)
          ++ "}"
  end.

Definition runtime : PyRuntime := {|
  json_loads := loads;
  json_dumps := dumps;
  float_repr := float_text;
  builtin_msg := message;
  loads_empty := eq_refl
|}.

End Samples.

(** ** Reading requests and responses *)

(** The three fields [handle_request] reads from a request that is a
    dictionary: [request.get("method")], [request.get("params", {})] and
    [request.get("id")]. *)
Definition request_method (kvs : list (string * json)) : json :=
  dict_get_or kvs "method" JNull.

Definition request_params (kvs : list (string * json)) : json :=
  dict_get_or kvs "params" (JDict []).

Definition request_id (kvs : list (string * json)) : json :=
  dict_get_or kvs "id" JNull.

(** A field of a response *)
Definition field (response : json) (key : string) : option json :=
  match response with
  | JDict kvs => dict_get kvs key
  | _ => None
  end.

(** The tool identifiers the chain of [handle_tool_call] compares
    [tool_name] with, in the order of the chain. *)
Definition registered : list string :=
  ["sap_connect"; "sap_disconnect"; "sap_get_sessions";
   "sap_navigate"; "sap_navigate_back"; "sap_navigate_exit";
   "sap_input_field"; "sap_get_field_value"; "sap_clear_field";
   "sap_press_button"; "sap_select_menu";
   "sap_send_key";
   "sap_get_table_data"; "sap_set_table_cell"; "sap_select_table_row";
   "sap_get_screen_info"; "sap_get_status_message";
   "sap_screenshot";
   "sap_execute_transaction"; "sap_wait_for_screen";
   "sap_export_data"; "sap_import_data"].

(** [name] is one of the registered identifiers *)
Definition is_registered (name : json) : bool :=
  existsb (eq_str name) registered.

(** The text [handle_tool_call] answers for a name that is not registered *)
Definition unknown_tool_text `{PyRuntime} (name : json) : string :=
  "Unknown SAP tool: " ++ py_str name
    ++ ". Available tools: sap_connect, sap_navigate, sap_input_field, sap_get_table_data, etc.".

(** The result [handle_initialize] returns *)
Definition initialize_result : json :=
  JDict
    [("protocolVersion", JStr "2024-11-05");
     ("capabilities", JDict [("tools", JDict []); ("resources", JDict [])]);
     ("serverInfo",
      JDict [("name", JStr "sap-automation"); ("version", JStr "1.0.0")])].

(** ** Reading lines, rows and steps *)

(** A line that [run] skips: nothing is left of it once stripped. *)
Definition is_blank (line : string) : bool := String.eqb (strip line) "".

(** A line that is an [initialize] request whose [params] is a dictionary:
    the one kind of line on which the handler assigns the flag. *)
Definition completes_initialize `{PyRuntime} (line : string) : bool :=
  match json_loads (strip line) with
  | Loaded (JDict kvs) =>
      eq_str (request_method kvs) "initialize" && is_dict (request_params kvs)
  | _ => false
  end.


(** The row the comprehension of [sap_get_table_data] builds for the index
    [i] from columns that are all hashable. *)
Definition table_row `{PyRuntime} (cols : list json) (i : Z) : list (json * string) :=
  fold_left (fun row col => dict_set row col (py_str col ++ "_VALUE_" ++ int_str i))
    cols [].

(** The text the loop of [sap_execute_transaction] appends for the step
    [step], a dictionary, at the index [i]. *)
Definition step_line `{PyRuntime} (i : Z) (step : list (string * json)) : string :=
  "Step " ++ int_str (i + 1) ++ ": "
    ++ py_str (dict_get_or step "action" (JStr "unknown")) ++ " on "
    ++ py_str (dict_get_or step "target" (JStr "unknown")) ++ " with '"
    ++ py_str (dict_get_or step "value" (JStr "")) ++ "'".

(** The fields of a step that is a dictionary *)
Definition step_fields (step : json) : list (string * json) :=
  match step with
  | JDict kvs => kvs
  | _ => []
  end.

(** A value equal to a string literal is that string. *)
Lemma eq_str_true (v : json) (s : string) : eq_str v s = true -> v = JStr s.
Proof.
  destruct v; try discriminate. cbn [eq_str]. intros Heq.
  apply String.eqb_eq in Heq. now subst.
Qed.

(** ** The request handler on a request that is a dictionary *)

Section RequestHandler.
Context `{PyRuntime}.

(** What [handle_request] does, branch by branch: a handler that raises is
    answered by the error boundary, and only [initialize] touches the flag. *)
Lemma handle_request_mapping (self : server) (kvs : list (string * json)) :
  handle_request self (JDict kvs) =
  let method := request_method kvs in
  let params := request_params kvs in
  let id := request_id kvs in
  if eq_str method "initialize" then
    match handle_initialize params with
    | Return result =>
        ({| initialized := true |}, Return (Some (result_response id result)))
    | Raise e => (self, Return (Some (invalid_params id e)))
    end
  else if eq_str method "notifications/initialized" then (self, Return None)
  else if eq_str method "tools/list" then
    (self, Return (Some (result_response id handle_tools_list)))
  else if eq_str method "tools/call" then
    match handle_tool_call params with
    | Return result => (self, Return (Some (result_response id result)))
    | Raise e => (self, Return (Some (invalid_params id e)))
    end
  else (self, Return (Some (method_not_found id method))).
Proof.
  unfold handle_request, dispatch, request_method, request_params, request_id.
  cbn [py_get bind].
  destruct (eq_str _ "initialize").
  - destruct (handle_initialize _); reflexivity.
  - destruct (eq_str _ "notifications/initialized"); [reflexivity|].
    destruct (eq_str _ "tools/list"); [reflexivity|].
    destruct (eq_str _ "tools/call"); [|reflexivity].
    destruct (handle_tool_call _); reflexivity.
Qed.

End RequestHandler.

(** Rewrite a call of the handler on a dictionary into its branches. *)
Ltac route := rewrite handle_request_mapping; cbv zeta.

(** ** The loop *)

Section Loop.
Context `{PyRuntime}.

(** A line that decodes is not blank. *)
Lemma loaded_not_blank (line : string) (v : json) :
  json_loads (strip line) = Loaded v -> String.eqb (strip line) "" = false.
Proof.
  intros Hload. destruct (String.eqb_spec (strip line) "") as [Hblank|]; [|reflexivity].
  rewrite Hblank, loads_empty in Hload. discriminate.
Qed.

(** On a line that decodes, the turn of the loop is decided by the handler. *)
Lemma run_line_loaded (self : server) (line : string) (request : json) :
  json_loads (strip line) = Loaded request ->
  run_line self line =
  match handle_request self request with
  | (self', Return (Some response)) =>
      if truthy response then (self', [json_dumps response]) else (self', [])
  | (self', _) => (self', [])
  end.
Proof.
  intros Hload. unfold run_line.
  rewrite (loaded_not_blank _ _ Hload), Hload.
  destruct (handle_request self request) as [self' [[response|]|e]]; reflexivity.
Qed.

(** The loop goes on with the next line, whatever the turn did. *)
Lemma run_cons (self : server) (line : string) (rest : list string) :
  run self (line :: rest) =
  (fst (run (fst (run_line self line)) rest),
   (snd (run_line self line) ++ snd (run (fst (run_line self line)) rest))%list).
Proof.
  cbn [run]. destruct (run_line self line) as [self' written].
  cbn [fst snd]. destruct (run self' rest); reflexivity.
Qed.


End Loop.

(** ** One response for each request *)

Section OneResponse.
Context `{PyRuntime}.

(** Every response the handler builds is a dictionary that is not empty,
    so [if response:] holds. *)
Lemma responses_truthy (id v method : json) (e : pyexn) :
  truthy (result_response id v) = true
  /\ truthy (invalid_params id e) = true
  /\ truthy (method_not_found id method) = true.
Proof. repeat split. Qed.

(** Unless the method is [notifications/initialized], the handler returns a
    response, which holds the [id] of the request. *)
Lemma handle_request_answers (self : server) (kvs : list (string * json)) :
  eq_str (request_method kvs) "notifications/initialized" = false ->
  exists (self' : server) (response : json),
    handle_request self (JDict kvs) = (self', Return (Some response))
    /\ truthy response = true
    /\ field response "id" = Some (request_id kvs).
Proof.
  intros Hmethod. route. rewrite Hmethod.
  destruct (eq_str _ "initialize").
  { destruct (handle_initialize _); eexists; eexists; repeat split. }
  destruct (eq_str _ "tools/list").
  { eexists; eexists; repeat split. }
  destruct (eq_str _ "tools/call").
  { destruct (handle_tool_call _); eexists; eexists; repeat split. }
  eexists; eexists; repeat split.
Qed.

(** The response the handler returns is the one line the turn writes. *)
Lemma run_line_answers (self self' : server) (line : string)
    (request response : json) :
  json_loads (strip line) = Loaded request ->
  handle_request self request = (self', Return (Some response)) ->
  truthy response = true ->
  run_line self line = (self', [json_dumps response]).
Proof.
  intros Hload Hhandle Htruthy.
  rewrite (run_line_loaded _ _ _ Hload), Hhandle, Htruthy. reflexivity.
Qed.

(** C1. A request that is a JSON object and whose method is not
    [notifications/initialized] gets exactly one response line, and the
    [id] of that response is the [id] of the request. When the routed
    handler raises, the one response is the error [-32602] of the
    boundary, with the same [id] and the text of the exception as [data],
    and the server is left as it was. In every case the loop goes on with
    the next line. *)
Theorem C1_one_response_with_request_id
    (self : server) (line : string) (kvs : list (string * json)) :
  json_loads (strip line) = Loaded (JDict kvs) ->
  eq_str (request_method kvs) "notifications/initialized" = false ->
  exists (self' : server) (response : json),
    handle_request self (JDict kvs) = (self', Return (Some response))
    /\ run_line self line = (self', [json_dumps response])
    /\ field response "id" = Some (request_id kvs)
    /\ (forall e,
        (eq_str (request_method kvs) "initialize" = true
         /\ handle_initialize (request_params kvs) = Raise e)
        \/ (eq_str (request_method kvs) "tools/call" = true
            /\ handle_tool_call (request_params kvs) = Raise e) ->
        self' = self
        /\ response =
           JDict
             [("jsonrpc", JStr "2.0"); ("id", request_id kvs);
              ("error",
               JDict
                 [("code", JInt (-32602));
                  ("message", JStr "Invalid request parameters");
                  ("data", JStr (exn_str e))])])
    /\ (forall rest,
        run self (line :: rest) =
        (fst (run self' rest), json_dumps response :: snd (run self' rest))).
Proof.
  intros Hload Hmethod.
  destruct (handle_request_answers self kvs Hmethod)
    as (self' & response & Hhandle & Htruthy & Hid).
  pose proof (run_line_answers _ _ _ _ _ Hload Hhandle Htruthy) as Hline.
  exists self', response.
  split; [exact Hhandle|]. split; [exact Hline|]. split; [exact Hid|]. split.
  - intros e Hraised.
    rewrite handle_request_mapping in Hhandle. cbv zeta in Hhandle.
    destruct Hraised as [[Hroute Hraise]|[Hroute Hraise]];
      rewrite (eq_str_true _ _ Hroute) in Hhandle;
      cbn [eq_str String.eqb Ascii.eqb Bool.eqb] in Hhandle;
      rewrite Hraise in Hhandle; injection Hhandle as <- <-; split; reflexivity.
  - intros rest. rewrite run_cons, Hline. reflexivity.
Qed.

End OneResponse.

(** ** The [initialize] handler and the lifecycle flag *)

Section Initialize.
Context `{PyRuntime}.

Lemma handle_initialize_mapping (kvs : list (string * json)) :
  handle_initialize (JDict kvs) = Return initialize_result.
Proof. reflexivity. Qed.

Lemma handle_initialize_not_mapping (params : json) :
  is_dict params = false ->
  handle_initialize params = Raise (ValueError "params must be a dictionary").
Proof. intros Hshape. unfold handle_initialize. rewrite Hshape. reflexivity. Qed.

(** A request that is not a dictionary makes [request.get] raise, in the
    [try] and again in the [except]: the handler raises and the server is
    as before. *)
Lemma handle_request_not_mapping (self : server) (request : json) :
  is_dict request = false ->
  handle_request self request =
  (self, Raise (Builtin (NoAttribute (type_of request) "get"))).
Proof. destruct request; intros Hshape; try discriminate; reflexivity. Qed.

(** No request resets the flag. *)
Lemma handle_request_keeps_initialized (self : server) (request : json) :
  initialized self = true ->
  initialized (fst (handle_request self request)) = true.
Proof.
  intros Hinit. destruct (is_dict request) eqn:Hshape.
  - destruct request; try discriminate.
    route.
    repeat match goal with
           | |- context [if ?c then _ else _] => destruct c
           | |- context [match ?o with Return _ => _ | Raise _ => _ end] => destruct o
           end; cbn [fst initialized]; trivial.
  - rewrite (handle_request_not_mapping _ _ Hshape). exact Hinit.
Qed.

Lemma run_line_keeps_initialized (self : server) (line : string) :
  initialized self = true -> initialized (fst (run_line self line)) = true.
Proof.
  intros Hinit. unfold run_line.
  destruct (String.eqb (strip line) ""); [exact Hinit|].
  destruct (json_loads (strip line)) as [request| |]; try exact Hinit.
  pose proof (handle_request_keeps_initialized self request Hinit) as Hkeep.
  destruct (handle_request self request) as [self' [[response|]|e]];
    cbn [fst] in Hkeep; try exact Hkeep.
  destruct (truthy response); exact Hkeep.
Qed.

(** Once set, the flag stays set for the rest of the run. *)
Lemma run_keeps_initialized (stdin : list string) (self : server) :
  initialized self = true -> initialized (fst (run self stdin)) = true.
Proof.
  revert self. induction stdin as [|line rest IH]; intros self Hinit.
  - exact Hinit.
  - rewrite run_cons. cbn [fst]. apply IH, run_line_keeps_initialized, Hinit.
Qed.

(** C2, as the code has it. An [initialize] request whose [params] is a
    dictionary (or is absent) sets the flag and is answered with the result
    of the handler, whatever the flag was: a repeated call runs the handler
    again and the flag stays set. When [params] is anything else, the
    handler raises before the flag is assigned and the server is left as it
    was. *)
Theorem C2_initialize_sets_flag_when_params_is_mapping
    (self : server) (kvs : list (string * json)) :
  eq_str (request_method kvs) "initialize" = true ->
  (is_dict (request_params kvs) = true ->
   handle_request self (JDict kvs) =
   ({| initialized := true |},
    Return (Some (result_response (request_id kvs) initialize_result))))
  /\ (is_dict (request_params kvs) = false ->
      fst (handle_request self (JDict kvs)) = self)
  /\ (initialized self = true ->
      initialized (fst (handle_request self (JDict kvs))) = true).
Proof.
  intros Hmethod. repeat split.
  - intros Hshape. route. rewrite Hmethod.
    destruct (request_params kvs); try discriminate. reflexivity.
  - intros Hshape. route. rewrite Hmethod.
    rewrite (handle_initialize_not_mapping _ Hshape). reflexivity.
  - apply handle_request_keeps_initialized.
Qed.

(** C5. The [initialize] handler returns the fixed result exactly on a
    [params] that is a dictionary, whatever it holds, and raises exactly on
    one that is not; the raise reaches the client as the error [-32602]
    whose [data] is the message of the exception. *)
Theorem C5_initialize_result_or_invalid_params
    (self : server) (kvs : list (string * json)) :
  eq_str (request_method kvs) "initialize" = true ->
  let params := request_params kvs in
  (is_dict params = true <-> handle_initialize params = Return initialize_result)
  /\ (is_dict params = false <-> exists e, handle_initialize params = Raise e)
  /\ (is_dict params = true ->
      snd (handle_request self (JDict kvs)) =
      Return (Some
        (JDict
           [("jsonrpc", JStr "2.0"); ("id", request_id kvs);
            ("result",
             JDict
               [("protocolVersion", JStr "2024-11-05");
                ("capabilities", JDict [("tools", JDict []); ("resources", JDict [])]);
                ("serverInfo",
                 JDict [("name", JStr "sap-automation");
                        ("version", JStr "1.0.0")])])])))
  /\ (is_dict params = false ->
      snd (handle_request self (JDict kvs)) =
      Return (Some
        (JDict
           [("jsonrpc", JStr "2.0"); ("id", request_id kvs);
            ("error",
             JDict
               [("code", JInt (-32602));
                ("message", JStr "Invalid request parameters");
                ("data", JStr "params must be a dictionary")])]))).
Proof.
  intros Hmethod params. subst params.
  destruct (is_dict (request_params kvs)) eqn:Hshape.
  - destruct (request_params kvs) as [| | | | | |pkvs] eqn:Hparams; try discriminate.
    repeat split; trivial; try discriminate.
    + intros [e He]. discriminate He.
    + intros _. route.
      rewrite Hmethod, Hparams. reflexivity.
  - pose proof (handle_initialize_not_mapping _ Hshape) as Hraise.
    repeat split; trivial; try discriminate.
    + rewrite Hraise. discriminate.
    + intros _. eexists. exact Hraise.
    + intros _. route.
      rewrite Hmethod, Hraise. reflexivity.
Qed.

End Initialize.

(** ** Routing *)

Section Routing.
Context `{PyRuntime}.

(** C3, as the code has it. Whether a response is written is decided by
    the method alone. A request whose [id] is absent or null is answered
    like any other, by one response line whose [id] is null; it is silent
    only when its method is [notifications/initialized]. *)
Theorem C3_null_id_is_answered_unless_initialized_notification
    (self : server) (line : string) (kvs : list (string * json)) :
  json_loads (strip line) = Loaded (JDict kvs) ->
  request_id kvs = JNull ->
  (eq_str (request_method kvs) "notifications/initialized" = false ->
   exists (self' : server) (response : json),
     run_line self line = (self', [json_dumps response])
     /\ field response "id" = Some JNull)
  /\ (eq_str (request_method kvs) "notifications/initialized" = true ->
      run_line self line = (self, [])).
Proof.
  intros Hload Hid. split; intros Hmethod.
  - destruct (handle_request_answers self kvs Hmethod)
      as (self' & response & Hhandle & Htruthy & Hfield).
    exists self', response. split.
    + exact (run_line_answers _ _ _ _ _ Hload Hhandle Htruthy).
    + rewrite Hfield, Hid. reflexivity.
  - rewrite (run_line_loaded _ _ _ Hload), handle_request_mapping. cbv zeta.
    rewrite (eq_str_true _ _ Hmethod). reflexivity.
Qed.

(** C6. A request whose method is none of the four the handler routes is
    answered by the error [-32601], whose message names the method, with
    the [id] of the request; the server is left as it was. *)
Theorem C6_method_not_found (self : server) (kvs : list (string * json)) :
  eq_str (request_method kvs) "initialize" = false ->
  eq_str (request_method kvs) "notifications/initialized" = false ->
  eq_str (request_method kvs) "tools/list" = false ->
  eq_str (request_method kvs) "tools/call" = false ->
  let response :=
    JDict
      [("jsonrpc", JStr "2.0"); ("id", request_id kvs);
       ("error",
        JDict
          [("code", JInt (-32601));
           ("message",
            JStr ("Method not found: " ++ py_str (request_method kvs)))])] in
  handle_request self (JDict kvs) = (self, Return (Some response))
  /\ (forall line,
      json_loads (strip line) = Loaded (JDict kvs) ->
      run_line self line = (self, [json_dumps response])).
Proof.
  intros H1 H2 H3 H4 response.
  assert (Hhandle : handle_request self (JDict kvs) = (self, Return (Some response))).
  { route. rewrite H1, H2, H3, H4. reflexivity. }
  split; [exact Hhandle|].
  intros line Hload. now apply (run_line_answers _ _ _ _ _ Hload Hhandle).
Qed.

(** C8. A request whose method is [notifications/initialized] writes no
    line, whatever its [params] and [id], and leaves the server as it was;
    and it is the only method of which this holds: a request that is a
    JSON object is silent exactly when this is its method. *)
Theorem C8_initialized_notification_writes_nothing
    (self : server) (line : string) (kvs : list (string * json)) :
  json_loads (strip line) = Loaded (JDict kvs) ->
  (eq_str (request_method kvs) "notifications/initialized" = true ->
   handle_request self (JDict kvs) = (self, Return None)
   /\ run_line self line = (self, []))
  /\ (snd (run_line self line) = [] ->
      eq_str (request_method kvs) "notifications/initialized" = true).
Proof.
  intros Hload. split.
  - intros Hmethod.
    assert (Hhandle : handle_request self (JDict kvs) = (self, Return None)).
    { route.
      rewrite (eq_str_true _ _ Hmethod). reflexivity. }
    split; [exact Hhandle|].
    rewrite (run_line_loaded _ _ _ Hload), Hhandle. reflexivity.
  - intros Hsilent.
    destruct (eq_str (request_method kvs) "notifications/initialized") eqn:Hmethod;
      [reflexivity|].
    destruct (handle_request_answers self kvs Hmethod)
      as (self' & response & Hhandle & Htruthy & _).
    rewrite (run_line_answers _ _ _ _ _ Hload Hhandle Htruthy) in Hsilent.
    discriminate.
Qed.

(** C10. A line that decodes to a document that is not an object writes
    nothing: [request.get] raises in the handler and again in its error
    boundary, and the loop catches it. The server is left as it was and the
    loop goes on with the next line. *)
Theorem C10_document_that_is_not_an_object_writes_nothing
    (self : server) (line : string) (document : json) :
  json_loads (strip line) = Loaded document ->
  is_dict document = false ->
  handle_request self document =
  (self, Raise (Builtin (NoAttribute (type_of document) "get")))
  /\ run_line self line = (self, [])
  /\ (forall rest, run self (line :: rest) = run self rest).
Proof.
  intros Hload Hshape.
  pose proof (handle_request_not_mapping self _ Hshape) as Hhandle.
  assert (Hline : run_line self line = (self, [])).
  { rewrite (run_line_loaded _ _ _ Hload), Hhandle. reflexivity. }
  repeat split; trivial.
  intros rest. rewrite run_cons, Hline. cbn [fst snd app].
  destruct (run self rest); reflexivity.
Qed.

(** C4, as the code has it. A line that is not blank and does not decode
    is answered by one line, the error [-32700] "Parse error" with a null
    [id]; the handler is not called, the server is left as it was and the
    loop goes on. A blank line is skipped before it is decoded and writes
    nothing. *)
Theorem C4_parse_error_unless_blank (self : server) (line : string) :
  json_loads (strip line) = JSONDecodeError ->
  let response :=
    JDict
      [("jsonrpc", JStr "2.0"); ("id", JNull);
       ("error",
        JDict [("code", JInt (-32700)); ("message", JStr "Parse error")])] in
  (strip line <> "" ->
   run_line self line = (self, [json_dumps response])
   /\ (forall rest,
       run self (line :: rest) =
       (fst (run self rest), json_dumps response :: snd (run self rest))))
  /\ (strip line = "" ->
      run_line self line = (self, [])
      /\ (forall rest, run self (line :: rest) = run self rest)).
Proof.
  intros Hload response. split; intros Hblank.
  - assert (Hline : run_line self line = (self, [json_dumps response])).
    { unfold run_line. apply String.eqb_neq in Hblank.
      rewrite Hblank, Hload. reflexivity. }
    split; [exact Hline|].
    intros rest. rewrite run_cons, Hline. reflexivity.
  - assert (Hline : run_line self line = (self, [])).
    { unfold run_line. rewrite Hblank. reflexivity. }
    split; [exact Hline|].
    intros rest. rewrite run_cons, Hline. cbn [fst snd app].
    destruct (run self rest); reflexivity.
Qed.

End Routing.

(** ** The catalog and the tool calls *)

Section Tools.
Context `{PyRuntime}.

(** The catalog advertises the registered identifiers, in the order of the
    chain of [handle_tool_call]. *)
Lemma catalog_names :
  map (fun descriptor => field descriptor "name") tools =
  map (fun name => Some (JStr name)) registered.
Proof. reflexivity. Qed.

(** A name that is not registered fails every comparison of the chain. *)
Lemma result_text_unknown (name arguments : json) :
  is_registered name = false ->
  result_text name arguments = Return (unknown_tool_text name).
Proof.
  unfold is_registered, registered. cbn [existsb]. intros Hunknown.
  repeat (apply orb_false_elim in Hunknown;
          destruct Hunknown as [?Hname Hunknown]).
  unfold result_text.
  repeat match goal with
         | Hname : eq_str name _ = false |- _ => rewrite Hname; clear Hname
         end.
  reflexivity.
Qed.

(** Conversely every registered name has a branch of its own: called
    without arguments it is not answered by the text of the last branch. *)
Lemma registered_is_known (name : json) :
  is_registered name = true ->
  result_text name (JDict []) <> Return (unknown_tool_text name).
Proof.
  unfold is_registered, registered. cbn [existsb]. intros Hknown.
  repeat (apply orb_true_elim in Hknown; destruct Hknown as [Hknown|Hknown];
          [apply eq_str_true in Hknown; subst name; vm_compute; discriminate|]).
  discriminate.
Qed.

(** C7. A [tools/call] whose [name] is no registered identifier is not an
    error: the handler returns a result whose text says that the tool is
    unknown, names it, and lists identifiers that are registered; the
    request is answered by that result, with its [id]. *)
Theorem C7_unknown_tool_is_a_result
    (self : server) (kvs pkvs : list (string * json)) :
  eq_str (request_method kvs) "tools/call" = true ->
  request_params kvs = JDict pkvs ->
  is_registered (dict_get_or pkvs "name" JNull) = false ->
  let name := dict_get_or pkvs "name" JNull in
  let result :=
    JDict
      [("content",
        JList
          [JDict
             [("type", JStr "text");
              ("text",
               JStr ("Unknown SAP tool: " ++ py_str name
                       ++ ". Available tools: sap_connect, sap_navigate, sap_input_field, sap_get_table_data, etc."))]])] in
  handle_tool_call (JDict pkvs) = Return result
  /\ handle_request self (JDict kvs) =
     (self,
      Return (Some (JDict [("jsonrpc", JStr "2.0"); ("id", request_id kvs);
                           ("result", result)])))
  /\ Forall (fun example => In example registered)
       ["sap_connect"; "sap_navigate"; "sap_input_field"; "sap_get_table_data"].
Proof.
  intros Hmethod Hparams Hunknown name result.
  assert (Hcall : handle_tool_call (JDict pkvs) = Return result).
  { unfold handle_tool_call. cbn [py_get bind]. fold name.
    rewrite (result_text_unknown _ _ Hunknown). reflexivity. }
  repeat split.
  - exact Hcall.
  - route.
    rewrite (eq_str_true _ _ Hmethod), Hparams, Hcall. reflexivity.
  - repeat constructor; cbn [registered In]; tauto.
Qed.

(** A tool call leaves the server as it was, whatever the handler does. *)
Lemma tool_call_keeps_server (self : server) (kvs : list (string * json)) :
  eq_str (request_method kvs) "tools/call" = true ->
  fst (handle_request self (JDict kvs)) = self.
Proof.
  intros Hmethod. route.
  rewrite (eq_str_true _ _ Hmethod).
  change (eq_str (JStr "tools/call") "initialize") with false.
  change (eq_str (JStr "tools/call") "notifications/initialized") with false.
  change (eq_str (JStr "tools/call") "tools/list") with false.
  change (eq_str (JStr "tools/call") "tools/call") with true.
  cbv iota. destruct (handle_tool_call _); reflexivity.
Qed.

(** C9. [tools/list] returns the catalog, the same descriptors in the
    same order at every call: it reads neither the request nor the server,
    it leaves the server as it was, and its answer is the same after any
    lines handled before, tool calls included, and under any flag. *)
Theorem C9_tools_list_is_pure (self : server) (kvs : list (string * json)) :
  eq_str (request_method kvs) "tools/list" = true ->
  let response :=
    JDict [("jsonrpc", JStr "2.0"); ("id", request_id kvs);
           ("result", JDict [("tools", JList tools)])] in
  handle_request self (JDict kvs) = (self, Return (Some response))
  /\ (forall other : server,
      snd (handle_request other (JDict kvs)) = Return (Some response))
  /\ (forall history : list string,
      snd (handle_request (fst (run self history)) (JDict kvs)) =
      Return (Some response)).
Proof.
  intros Hmethod response.
  assert (Hany : forall s, handle_request s (JDict kvs) = (s, Return (Some response))).
  { intros s. route.
    rewrite (eq_str_true _ _ Hmethod). reflexivity. }
  repeat split.
  - apply Hany.
  - intros other. rewrite Hany. reflexivity.
  - intros history. rewrite Hany. reflexivity.
Qed.

End Tools.

(** ** The sample lines *)

(** What the server writes for the sample lines, in order. *)
Example sample_run :
  @run Samples.runtime new_server
    [Samples.line_foo; "   "; "{oops"; Samples.line_initialize_list;
     Samples.line_initialized; "5"; Samples.line_call_unknown;
     Samples.line_call_bad_arguments; Samples.line_initialize]
  = ({| initialized := true |},
     map Samples.dumps
       [JDict [("jsonrpc", JStr "2.0"); ("id", JInt 7);
               ("error", JDict [("code", JInt (-32601));
                                ("message", JStr "Method not found: foo")])];
        JDict [("jsonrpc", JStr "2.0"); ("id", JNull);
               ("error", JDict [("code", JInt (-32700));
                                ("message", JStr "Parse error")])];
        JDict [("jsonrpc", JStr "2.0"); ("id", JInt 1);
               ("error", JDict [("code", JInt (-32602));
                                ("message", JStr "Invalid request parameters");
                                ("data", JStr "params must be a dictionary")])];
        JDict [("jsonrpc", JStr "2.0"); ("id", JInt 3);
               ("result",
                JDict [("content",
                        JList [JDict [("type", JStr "text");
                                      ("text", JStr "Unknown SAP tool: sap_fly. Available tools: sap_connect, sap_navigate, sap_input_field, sap_get_table_data, etc.")]])])];
        JDict [("jsonrpc", JStr "2.0"); ("id", JInt 4);
               ("error", JDict [("code", JInt (-32602));
                                ("message", JStr "Invalid request parameters");
                                ("data", JStr "'list' object has no attribute 'get'")])];
        JDict [("jsonrpc", JStr "2.0"); ("id", JInt 1);
               ("result", initialize_result)]]).
Proof. vm_compute. reflexivity. Qed.

(** The line the server writes for a method it does not route, as text. *)
Example sample_method_not_found_line :
  snd (@run_line Samples.runtime new_server Samples.line_foo)
  = ["{" ++ Samples.q "jsonrpc" ++ ": " ++ Samples.q "2.0" ++ ", "
         ++ Samples.q "id" ++ ": 7, " ++ Samples.q "error" ++ ": {"
         ++ Samples.q "code" ++ ": -32601, " ++ Samples.q "message" ++ ": "
         ++ Samples.q "Method not found: foo" ++ "}}"].
Proof. vm_compute. reflexivity. Qed.

(** The tool calls of the repository's tests. *)
Example sample_connect :
  @handle_tool_call Samples.runtime
    (JDict [("name", JStr "sap_connect");
            ("arguments",
             JDict [("system_id", JStr "DEV"); ("client", JStr "100");
                    ("username", JStr "testuser"); ("password", JStr "pass");
                    ("server", JStr "sap-server")])])
  = Return
      (JDict [("content",
               JList [JDict [("type", JStr "text");
                             ("text", JStr "Successfully connected to SAP system DEV client 100 on server sap-server with language EN")]])]).
Proof. vm_compute. reflexivity. Qed.

Example sample_table_data :
  @handle_tool_call Samples.runtime
    (JDict [("name", JStr "sap_get_table_data");
            ("arguments", JDict [("table_id", JStr "T"); ("row_count", JInt 2);
                                 ("columns", JList [JStr "A"; JStr "B"])])])
  = Return
      (JDict [("content",
               JList [JDict [("type", JStr "text");
                             ("text", JStr "Extracted 2 rows from table 'T': [{'A': 'A_VALUE_0', 'B': 'B_VALUE_0'}, {'A': 'A_VALUE_1', 'B': 'B_VALUE_1'}]")]])]).
Proof. vm_compute. reflexivity. Qed.

Example sample_execute_transaction :
  @handle_tool_call Samples.runtime
    (JDict [("name", JStr "sap_execute_transaction");
            ("arguments",
             JDict [("transaction_code", JStr "VA01");
                    ("steps",
                     JList [JDict [("action", JStr "input");
                                   ("target", JStr "VBAK-VKORG");
                                   ("value", JStr "1000")];
                            JDict [("action", JStr "button");
                                   ("target", JStr "SAVE");
                                   ("value", JStr "")]])])])
  = Return
      (JDict [("content",
               JList [JDict [("type", JStr "text");
                             ("text", JStr "Executed transaction VA01 with 2 steps: Step 1: input on VBAK-VKORG with '1000'; Step 2: button on SAVE with ''")]])]).
Proof. vm_compute. reflexivity. Qed.

(** ** Where the code departs from the claims *)

(** C2, counterexample. An [initialize] request whose [params] is the list
    [[1]] is answered by an error and leaves the flag unset. *)
Lemma C2_initialize_with_list_params_leaves_flag_unset :
  @json_loads Samples.runtime (strip Samples.line_initialize_list)
  = Loaded (JDict Samples.request_initialize_list)
  /\ eq_str (request_method Samples.request_initialize_list) "initialize" = true
  /\ initialized
       (fst (@handle_request Samples.runtime new_server
               (JDict Samples.request_initialize_list))) = false
  /\ initialized
       (fst (@run Samples.runtime new_server [Samples.line_initialize_list]))
     = false.
Proof. repeat split. Qed.

(** C3, counterexample. A [tools/list] request without an [id] is answered
    by a response line, whose [id] is null. *)
Lemma C3_tools_list_without_id_is_answered :
  @json_loads Samples.runtime (strip Samples.line_tools_list_no_id)
  = Loaded (JDict Samples.request_tools_list_no_id)
  /\ dict_get Samples.request_tools_list_no_id "id" = None
  /\ snd (@run_line Samples.runtime new_server Samples.line_tools_list_no_id)
     = [Samples.dumps
          (JDict [("jsonrpc", JStr "2.0"); ("id", JNull);
                  ("result", JDict [("tools", JList tools)])])]
  /\ snd (@run_line Samples.runtime new_server Samples.line_tools_list_no_id)
     <> [].
Proof.
  split; [reflexivity|]. split; [reflexivity|].
  assert (Hline :
    snd (@run_line Samples.runtime new_server Samples.line_tools_list_no_id)
    = [Samples.dumps
         (JDict [("jsonrpc", JStr "2.0"); ("id", JNull);
                 ("result", JDict [("tools", JList tools)])])]).
  { reflexivity. }
  split; [exact Hline|]. rewrite Hline. discriminate.
Qed.

(** C4, counterexample. A blank line is not a JSON document, and the
    server writes nothing for it. *)
Lemma C4_blank_line_writes_nothing :
  @json_loads Samples.runtime (strip "   ") = JSONDecodeError
  /\ @run_line Samples.runtime new_server "   " = (new_server, [])
  /\ snd (@run_line Samples.runtime new_server "   ")
     <> [@json_dumps Samples.runtime parse_error].
Proof. repeat split. discriminate. Qed.

(** ** The theorems at the sample lines *)

Lemma C1_witness :
  @json_loads Samples.runtime (strip Samples.line_call_bad_arguments)
  = Loaded (JDict Samples.request_call_bad_arguments)
  /\ eq_str (request_method Samples.request_call_bad_arguments)
       "notifications/initialized" = false
  /\ exists (self' : server) (response : json),
       @run_line Samples.runtime new_server Samples.line_call_bad_arguments
       = (self', [Samples.dumps response])
       /\ field response "id" = Some (JInt 4).
Proof.
  split; [reflexivity|]. split; [reflexivity|].
  destruct (@C1_one_response_with_request_id Samples.runtime new_server
              Samples.line_call_bad_arguments
              Samples.request_call_bad_arguments eq_refl eq_refl)
    as (self' & response & _ & Hline & Hid & _).
  exists self', response. split; [exact Hline | exact Hid].
Defined.

Lemma C2_witness :
  eq_str (request_method Samples.request_initialize) "initialize" = true
  /\ is_dict (request_params Samples.request_initialize) = true
  /\ @handle_request Samples.runtime new_server (JDict Samples.request_initialize)
     = ({| initialized := true |},
        Return (Some (result_response (JInt 1) initialize_result))).
Proof.
  split; [reflexivity|]. split; [reflexivity|].
  exact (proj1 (@C2_initialize_sets_flag_when_params_is_mapping Samples.runtime
                  new_server Samples.request_initialize eq_refl) eq_refl).
Defined.

Lemma C3_witness :
  @json_loads Samples.runtime (strip Samples.line_tools_list_no_id)
  = Loaded (JDict Samples.request_tools_list_no_id)
  /\ request_id Samples.request_tools_list_no_id = JNull
  /\ eq_str (request_method Samples.request_tools_list_no_id)
       "notifications/initialized" = false
  /\ exists (self' : server) (response : json),
       @run_line Samples.runtime new_server Samples.line_tools_list_no_id
       = (self', [Samples.dumps response])
       /\ field response "id" = Some JNull.
Proof.
  split; [reflexivity|]. split; [reflexivity|]. split; [reflexivity|].
  exact (proj1 (@C3_null_id_is_answered_unless_initialized_notification
                  Samples.runtime new_server Samples.line_tools_list_no_id
                  Samples.request_tools_list_no_id eq_refl eq_refl) eq_refl).
Defined.

Lemma C4_witness :
  @json_loads Samples.runtime (strip "{oops") = JSONDecodeError
  /\ strip "{oops" <> ""
  /\ @run_line Samples.runtime new_server "{oops"
     = (new_server,
        [Samples.dumps
           (JDict [("jsonrpc", JStr "2.0"); ("id", JNull);
                   ("error", JDict [("code", JInt (-32700));
                                    ("message", JStr "Parse error")])])]).
Proof.
  assert (Hline : strip "{oops" <> "") by discriminate.
  split; [reflexivity|]. split; [exact Hline|].
  exact (proj1 (proj1 (@C4_parse_error_unless_blank Samples.runtime new_server
                         "{oops" eq_refl) Hline)).
Defined.

Lemma C5_witness :
  eq_str (request_method Samples.request_initialize_list) "initialize" = true
  /\ is_dict (request_params Samples.request_initialize_list) = false
  /\ snd (@handle_request Samples.runtime new_server
            (JDict Samples.request_initialize_list))
     = Return (Some
         (JDict [("jsonrpc", JStr "2.0"); ("id", JInt 1);
                 ("error",
                  JDict [("code", JInt (-32602));
                         ("message", JStr "Invalid request parameters");
                         ("data", JStr "params must be a dictionary")])])).
Proof.
  split; [reflexivity|]. split; [reflexivity|].
  exact (proj2 (proj2 (proj2
           (@C5_initialize_result_or_invalid_params Samples.runtime new_server
              Samples.request_initialize_list eq_refl))) eq_refl).
Defined.

Lemma C6_witness :
  eq_str (request_method Samples.request_foo) "initialize" = false
  /\ eq_str (request_method Samples.request_foo) "notifications/initialized" = false
  /\ eq_str (request_method Samples.request_foo) "tools/list" = false
  /\ eq_str (request_method Samples.request_foo) "tools/call" = false
  /\ @handle_request Samples.runtime new_server (JDict Samples.request_foo)
     = (new_server,
        Return (Some
          (JDict [("jsonrpc", JStr "2.0"); ("id", JInt 7);
                  ("error",
                   JDict [("code", JInt (-32601));
                          ("message", JStr "Method not found: foo")])]))).
Proof.
  split; [reflexivity|]. split; [reflexivity|]. split; [reflexivity|].
  split; [reflexivity|].
  exact (proj1 (@C6_method_not_found Samples.runtime new_server
                  Samples.request_foo eq_refl eq_refl eq_refl eq_refl)).
Defined.

Lemma C7_witness :
  eq_str (request_method Samples.request_call_unknown) "tools/call" = true
  /\ request_params Samples.request_call_unknown = JDict Samples.params_call_unknown
  /\ is_registered (dict_get_or Samples.params_call_unknown "name" JNull) = false
  /\ @handle_tool_call Samples.runtime (JDict Samples.params_call_unknown)
     = Return
         (JDict [("content",
                  JList [JDict [("type", JStr "text");
                                ("text", JStr "Unknown SAP tool: sap_fly. Available tools: sap_connect, sap_navigate, sap_input_field, sap_get_table_data, etc.")]])]).
Proof.
  split; [reflexivity|]. split; [reflexivity|]. split; [reflexivity|].
  exact (proj1 (@C7_unknown_tool_is_a_result Samples.runtime new_server
                  Samples.request_call_unknown Samples.params_call_unknown
                  eq_refl eq_refl eq_refl)).
Defined.

Lemma C8_witness :
  @json_loads Samples.runtime (strip Samples.line_initialized)
  = Loaded (JDict Samples.request_initialized)
  /\ eq_str (request_method Samples.request_initialized)
       "notifications/initialized" = true
  /\ @run_line Samples.runtime new_server Samples.line_initialized
     = (new_server, []).
Proof.
  split; [reflexivity|]. split; [reflexivity|].
  exact (proj2 (proj1 (@C8_initialized_notification_writes_nothing
                         Samples.runtime new_server Samples.line_initialized
                         Samples.request_initialized eq_refl) eq_refl)).
Defined.

Lemma C9_witness :
  eq_str (request_method Samples.request_tools_list) "tools/list" = true
  /\ forall history : list string,
       snd (@handle_request Samples.runtime
              (fst (@run Samples.runtime new_server history))
              (JDict Samples.request_tools_list))
       = Return (Some
           (JDict [("jsonrpc", JStr "2.0"); ("id", JInt 2);
                   ("result", JDict [("tools", JList tools)])])).
Proof.
  split; [reflexivity|].
  exact (proj2 (proj2 (@C9_tools_list_is_pure Samples.runtime new_server
                         Samples.request_tools_list eq_refl))).
Defined.

Lemma C10_witness :
  @json_loads Samples.runtime (strip "5") = Loaded (JInt 5)
  /\ is_dict (JInt 5) = false
  /\ @run_line Samples.runtime new_server "5" = (new_server, [])
  /\ forall rest, @run Samples.runtime new_server ("5" :: rest)
                  = @run Samples.runtime new_server rest.
Proof.
  split; [reflexivity|]. split; [reflexivity|].
  exact (proj2 (@C10_document_that_is_not_an_object_writes_nothing
                  Samples.runtime new_server "5" (JInt 5) eq_refl eq_refl)).
Defined.

(** ** The session as a whole *)

Section Session.
Context `{PyRuntime}.

(** The handler raises exactly on a request that is not a dictionary, and
    then leaves the server as it was: on a dictionary the error boundary
    catches whatever the routed handler raises. *)
Theorem handle_request_raises_iff_not_mapping (self : server) (request : json) :
  (exists e, snd (handle_request self request) = Raise e) <-> is_dict request = false.
Proof.
  split.
  - intros [e Hraise]. destruct request as [| | | | | |kvs]; try reflexivity.
    rewrite handle_request_mapping in Hraise. cbv zeta in Hraise.
    repeat match type of Hraise with
           | context [if ?c then _ else _] => destruct c
           | context [match ?o with Return _ => _ | Raise _ => _ end] => destruct o
           end; discriminate.
  - intros Hshape. rewrite (handle_request_not_mapping _ _ Hshape).
    eexists. reflexivity.
Qed.

(** What the handler answers does not depend on the server: the flag gates
    nothing, and tools are listed and called before [initialize] as after. *)
Lemma handle_request_answer_any_server (self other : server) (request : json) :
  snd (handle_request self request) = snd (handle_request other request).
Proof.
  destruct (is_dict request) eqn:Hshape.
  - destruct request; try discriminate. rewrite !handle_request_mapping. cbv zeta.
    repeat match goal with
           | |- context [if ?c then _ else _] => destruct c
           | |- context [match ?o with Return _ => _ | Raise _ => _ end] => destruct o
           end; reflexivity.
  - rewrite !(handle_request_not_mapping _ _ Hshape). reflexivity.
Qed.

Lemma run_line_written_any_server (self other : server) (line : string) :
  snd (run_line self line) = snd (run_line other line).
Proof.
  unfold run_line. destruct (String.eqb (strip line) ""); [reflexivity|].
  destruct (json_loads (strip line)) as [request| |]; try reflexivity.
  pose proof (handle_request_answer_any_server self other request) as Hsame.
  destruct (handle_request self request) as [s1 o1],
           (handle_request other request) as [s2 o2].
  cbn [snd] in Hsame. subst o2.
  destruct o1 as [[response|]|e]; try reflexivity.
  destruct (truthy response); reflexivity.
Qed.

(** The lines written for an input are the lines written for each of its
    lines on its own, in the order of the input: no line changes what is
    answered to another, and no answer is moved or dropped. *)
Theorem run_written_line_by_line (self : server) (stdin : list string) :
  snd (run self stdin) =
  List.concat (map (fun line => snd (run_line new_server line)) stdin).
Proof.
  revert self. induction stdin as [|line rest IH]; intros self.
  - reflexivity.
  - rewrite run_cons. cbn [snd map List.concat]. rewrite IH.
    rewrite (run_line_written_any_server self new_server). reflexivity.
Qed.

(** A line is answered by at most one line. *)
Lemma run_line_writes_at_most_one (self : server) (line : string) :
  (List.length (snd (run_line self line)) <= 1)%nat.
Proof.
  unfold run_line. destruct (String.eqb (strip line) ""); [cbn; auto|].
  destruct (json_loads (strip line)) as [request| |]; cbn [snd List.length]; auto.
  destruct (handle_request self request) as [self' [[response|]|e]];
    cbn [snd List.length]; auto.
  destruct (truthy response); cbn [snd List.length]; auto.
Qed.

(** The server never writes more lines than it has read. *)
Theorem run_writes_no_more_than_read (self : server) (stdin : list string) :
  (List.length (snd (run self stdin)) <= List.length stdin)%nat.
Proof.
  revert self. induction stdin as [|line rest IH]; intros self.
  - cbn. auto.
  - rewrite run_cons. cbn [snd List.length]. rewrite length_app.
    pose proof (run_line_writes_at_most_one self line) as Hone.
    specialize (IH (fst (run_line self line))).
    apply (Nat.le_trans _ (1 + List.length rest)); [|apply Nat.le_refl].
    apply Nat.add_le_mono; assumption.
Qed.

(** The server after a line: the flag is assigned by an [initialize]
    request whose [params] is a dictionary, and by nothing else. *)
Lemma run_line_server (self : server) (line : string) :
  fst (run_line self line) =
  if completes_initialize line then {| initialized := true |} else self.
Proof.
  unfold run_line, completes_initialize.
  destruct (String.eqb_spec (strip line) "") as [Hblank|Hblank].
  - rewrite Hblank, loads_empty. reflexivity.
  - destruct (json_loads (strip line)) as [request| |]; try reflexivity.
    destruct (is_dict request) eqn:Hshape.
    + destruct request as [| | | | | |kvs]; try discriminate.
      rewrite handle_request_mapping. cbv zeta.
      destruct (eq_str (request_method kvs) "initialize") eqn:Hmethod.
      * destruct (is_dict (request_params kvs)) eqn:Hparams.
        -- destruct (request_params kvs); try discriminate. reflexivity.
        -- rewrite (handle_initialize_not_mapping _ Hparams). reflexivity.
      * cbn [andb].
        repeat match goal with
               | |- context [if ?c then _ else _] => destruct c
               | |- context [match ?o with Return _ => _ | Raise _ => _ end] =>
                   destruct o
               end; reflexivity.
    + rewrite (handle_request_not_mapping _ _ Hshape).
      destruct request; try discriminate; reflexivity.
Qed.

(** The flag at the end of a session: it is set exactly when some line was
    an [initialize] request whose [params] is a dictionary. Tool calls,
    listings, other methods, failed [initialize] requests and lines that do
    not decode leave it unset. *)
Theorem main_initialized_iff_initialize_completed (stdin : list string) :
  initialized (fst (main stdin)) = existsb completes_initialize stdin.
Proof.
  unfold main.
  assert (Hany : forall self,
             initialized (fst (run self stdin)) =
             initialized self || existsb completes_initialize stdin).
  { induction stdin as [|line rest IH]; intros self.
    - cbn. now rewrite orb_false_r.
    - rewrite run_cons. cbn [fst existsb]. rewrite IH, run_line_server.
      destruct (completes_initialize line); cbn [initialized orb].
      + now rewrite orb_true_r.
      + reflexivity. }
  rewrite Hany. reflexivity.
Qed.

(** Blank lines are not part of the conversation: removing them from the
    input changes neither the lines written nor the server at the end. *)
Theorem run_ignores_blank_lines (self : server) (stdin : list string) :
  run self (filter (fun line => negb (is_blank line)) stdin) = run self stdin.
Proof.
  revert self. induction stdin as [|line rest IH]; intros self.
  - reflexivity.
  - cbn [filter]. destruct (is_blank line) eqn:Hblank; cbn [negb].
    + rewrite IH. rewrite (run_cons self line).
      assert (Hline : run_line self line = (self, [])).
      { unfold run_line. unfold is_blank in Hblank. rewrite Hblank. reflexivity. }
      rewrite Hline. cbn [fst snd app]. destruct (run self rest); reflexivity.
    + rewrite !run_cons, IH. reflexivity.
Qed.

(** Every response the handler returns is a JSON-RPC 2.0 envelope with the
    [id] of the request and either a [result] or an [error], never both;
    the code of an error is [-32601] or [-32602]. *)
Theorem handle_request_response_shape
    (self self' : server) (kvs : list (string * json)) (response : json) :
  handle_request self (JDict kvs) = (self', Return (Some response)) ->
  field response "jsonrpc" = Some (JStr "2.0")
  /\ field response "id" = Some (request_id kvs)
  /\ ((exists result,
        field response "result" = Some result /\ field response "error" = None)
      \/ (exists (code : Z) (message : string) (more : list (string * json)),
           field response "error" =
           Some (JDict (("code", JInt code) :: ("message", JStr message) :: more))
           /\ field response "result" = None
           /\ (code = -32601 \/ code = -32602))).
Proof.
  rewrite handle_request_mapping. cbv zeta. intros Hhandle.
  repeat match type of Hhandle with
         | context [if ?c then _ else _] => destruct c
         | context [match ?o with Return _ => _ | Raise _ => _ end] => destruct o
         end;
    injection Hhandle as _ <- || discriminate Hhandle;
    (split; [reflexivity|]); (split; [reflexivity|]);
    solve [ left; eexists; split; reflexivity
          | right; eexists; eexists; eexists;
            split; [reflexivity|]; split; [reflexivity|]; auto ].
Qed.

(** A [tools/call] whose [params] is not a dictionary is answered by the
    error [-32602]: [params.get] raises before any tool is looked up. *)
Theorem tool_call_params_not_mapping (self : server) (kvs : list (string * json)) :
  eq_str (request_method kvs) "tools/call" = true ->
  is_dict (request_params kvs) = false ->
  handle_request self (JDict kvs) =
  (self,
   Return (Some
     (JDict
        [("jsonrpc", JStr "2.0"); ("id", request_id kvs);
         ("error",
          JDict
            [("code", JInt (-32602));
             ("message", JStr "Invalid request parameters");
             ("data",
              JStr (builtin_msg (NoAttribute (type_of (request_params kvs)) "get")))])]))).
Proof.
  intros Hmethod Hshape. route. rewrite (eq_str_true _ _ Hmethod).
  cbn [eq_str String.eqb Ascii.eqb Bool.eqb].
  destruct (request_params kvs); try discriminate; reflexivity.
Qed.

End Session.

(** ** The tools *)

Section ToolCalls.
Context `{PyRuntime}.

(** Whatever the tool, a call that returns has one shape: a [content] list
    with a single item of type [text]. *)
Theorem handle_tool_call_returns_one_text (params result : json) :
  handle_tool_call params = Return result ->
  exists text : string,
    result =
    JDict [("content", JList [JDict [("type", JStr "text"); ("text", JStr text)]])].
Proof.
  unfold handle_tool_call.
  destruct (py_get params "name" JNull) as [name|]; cbn [bind]; [|discriminate].
  destruct (py_get params "arguments" (JDict [])) as [arguments|]; cbn [bind];
    [|discriminate].
  destruct (result_text name arguments) as [text|]; cbn [bind]; [|discriminate].
  intros Hresult. injection Hresult as <-. exists text. reflexivity.
Qed.

(** A registered tool called with [arguments] that is not a dictionary
    raises on its first [arguments.get]; the one exception is
    [sap_get_sessions], which never reads [arguments] and answers as
    usual. *)
Theorem tool_call_arguments_not_mapping (pkvs : list (string * json)) :
  let name := dict_get_or pkvs "name" JNull in
  let arguments := dict_get_or pkvs "arguments" (JDict []) in
  is_registered name = true ->
  is_dict arguments = false ->
  handle_tool_call (JDict pkvs) =
  if eq_str name "sap_get_sessions" then
    Return
      (JDict
         [("content",
           JList
             [JDict
                [("type", JStr "text");
                 ("text",
                  JStr "Active SAP sessions: Session[0] - DEV/100, Session[1] - QAS/100")]])])
  else Raise (Builtin (NoAttribute (type_of arguments) "get")).
Proof.
  intros name arguments Hknown Hshape.
  unfold handle_tool_call. cbn [py_get bind]. fold name arguments.
  destruct arguments; try discriminate Hshape;
    unfold is_registered, registered in Hknown; cbn [existsb] in Hknown;
    repeat (apply orb_true_elim in Hknown; destruct Hknown as [Hknown|Hknown];
            [apply eq_str_true in Hknown; rewrite Hknown; reflexivity|]);
    discriminate Hknown.
Qed.

(** Try the branch of the chain for the name [s]: when it is taken, every
    [arguments.get] returns and so does the branch. *)
Ltac branch s :=
  destruct (eq_str _ s);
  [cbn [py_get bind]; eexists; reflexivity|].

(** With [arguments] a dictionary, a tool call can only raise in the two
    tools that loop over their arguments: every other name, registered or
    not, is answered with a text, whatever the dictionary holds. *)
Theorem tools_without_loops_always_answer
    (name : json) (akvs : list (string * json)) :
  eq_str name "sap_get_table_data" = false ->
  eq_str name "sap_execute_transaction" = false ->
  exists text : string, result_text name (JDict akvs) = Return text.
Proof.
  intros Htable Hexecute. unfold result_text. rewrite Htable, Hexecute.
  branch "sap_connect". branch "sap_disconnect". branch "sap_get_sessions".
  branch "sap_navigate". branch "sap_navigate_back". branch "sap_navigate_exit".
  branch "sap_input_field". branch "sap_get_field_value". branch "sap_clear_field".
  branch "sap_press_button". branch "sap_select_menu". branch "sap_send_key".
  branch "sap_set_table_cell". branch "sap_select_table_row".
  branch "sap_get_screen_info". branch "sap_get_status_message".
  branch "sap_screenshot". branch "sap_wait_for_screen".
  branch "sap_export_data". branch "sap_import_data".
  eexists. reflexivity.
Qed.

(** The branch of [sap_connect] on a dictionary of arguments *)
Lemma result_text_connect (akvs : list (string * json)) :
  result_text (JStr "sap_connect") (JDict akvs) =
  Return ("Successfully connected to SAP system "
            ++ py_str (dict_get_or akvs "system_id" (JStr "DEV"))
            ++ " client " ++ py_str (dict_get_or akvs "client" (JStr "100"))
            ++ " on server " ++ py_str (dict_get_or akvs "server" (JStr "localhost"))
            ++ " with language " ++ py_str (dict_get_or akvs "language" (JStr "EN"))).
Proof. reflexivity. Qed.

(** The answer of [sap_connect] depends on [system_id], [client], [server]
    and [language] only: the [username] is read and dropped, the [password]
    is never read, and neither appears in the text. *)
Theorem connect_text_ignores_credentials (akvs akvs' : list (string * json)) :
  dict_get akvs "system_id" = dict_get akvs' "system_id" ->
  dict_get akvs "client" = dict_get akvs' "client" ->
  dict_get akvs "server" = dict_get akvs' "server" ->
  dict_get akvs "language" = dict_get akvs' "language" ->
  result_text (JStr "sap_connect") (JDict akvs) =
  result_text (JStr "sap_connect") (JDict akvs').
Proof.
  intros Hsystem Hclient Hserver Hlanguage. rewrite !result_text_connect.
  unfold dict_get_or. rewrite Hsystem, Hclient, Hserver, Hlanguage. reflexivity.
Qed.

End ToolCalls.

(** ** The two tools that loop *)

Section Loops.
Context `{PyRuntime}.

Lemma mapM_return {A B : Type} (f : A -> outcome B) (g : A -> B) (l : list A) :
  (forall a, In a l -> f a = Return (g a)) -> mapM f l = Return (map g l).
Proof.
  induction l as [|a l IH]; intros Hall.
  - reflexivity.
  - cbn [mapM map]. rewrite (Hall a (or_introl eq_refl)). cbn [bind].
    rewrite IH; [reflexivity|]. intros b Hb. apply Hall. now right.
Qed.

Lemma mapM_raise {A B : Type} (f : A -> outcome B) (g : A -> B)
    (before after : list A) (a : A) (e : pyexn) :
  (forall b, In b before -> f b = Return (g b)) ->
  f a = Raise e ->
  mapM f (before ++ a :: after) = Raise e.
Proof.
  induction before as [|b before IH]; intros Hall Hraise.
  - cbn [app mapM]. rewrite Hraise. reflexivity.
  - cbn [app mapM]. rewrite (Hall b (or_introl eq_refl)). cbn [bind].
    rewrite IH; [reflexivity| |exact Hraise]. intros c Hc. apply Hall. now right.
Qed.


Lemma range_list_empty (start stop : Z) : stop <= start -> range_list start stop = [].
Proof.
  intros Hle. unfold range_list.
  replace (Z.to_nat (stop - start)) with 0%nat by lia. reflexivity.
Qed.

Lemma range_list_first (start stop : Z) :
  start < stop -> range_list start stop = start :: range_list (start + 1) stop.
Proof.
  intros Hlt. unfold range_list.
  replace (Z.to_nat (stop - start)) with (S (Z.to_nat (stop - (start + 1)))) by lia.
  cbn [seq map]. f_equal; [lia|].
  rewrite <- seq_shift, map_map. apply map_ext. intros k. lia.
Qed.

(** The branch of [sap_get_table_data] on a dictionary of arguments *)
Lemma result_text_table_data (akvs : list (string * json)) :
  result_text (JStr "sap_get_table_data") (JDict akvs) =
  (let table_id := dict_get_or akvs "table_id" (JStr "TABLE") in
   let row_start := dict_get_or akvs "row_start" (JInt 0) in
   let row_count := dict_get_or akvs "row_count" (JInt 10) in
   let columns :=
     dict_get_or akvs "columns" (JList [JStr "COL1"; JStr "COL2"; JStr "COL3"]) in
   stop <- py_add row_start row_count ;;
   indices <- py_range row_start stop ;;
   mock_data <- mapM (make_row columns) indices ;;
   Return ("Extracted " ++ int_str (Z.of_nat (List.length mock_data))
             ++ " rows from table '" ++ py_str table_id ++ "': "
             ++ rows_repr mock_data)).
Proof. reflexivity. Qed.



(** [columns] is read only when there is a row to build: with nothing to
    extract the call answers whatever [columns] is, and with a row to
    build a [columns] that cannot be iterated makes the call raise. *)
Theorem table_data_columns_read_when_rows
    (akvs : list (string * json)) (start count : Z) (e : pyexn) :
  dict_get_or akvs "row_start" (JInt 0) = JInt start ->
  dict_get_or akvs "row_count" (JInt 10) = JInt count ->
  py_iter (dict_get_or akvs "columns" (JList [JStr "COL1"; JStr "COL2"; JStr "COL3"]))
  = Raise e ->
  result_text (JStr "sap_get_table_data") (JDict akvs) =
  if count <=? 0 then
    Return ("Extracted 0 rows from table '"
              ++ py_str (dict_get_or akvs "table_id" (JStr "TABLE")) ++ "': []")
  else Raise e.
Proof.
  intros Hstart Hcount Hcolumns.
  rewrite result_text_table_data. cbv zeta. rewrite Hstart, Hcount.
  cbn [py_add bind py_range py_index].
  destruct (Z.leb_spec count 0) as [Hle|Hlt].
  - rewrite range_list_empty by lia. reflexivity.
  - rewrite range_list_first by lia. cbn [mapM]. unfold make_row at 1.
    rewrite Hcolumns. reflexivity.
Qed.

Lemma dict_set_new_name (i : Z) (done : list string) (name : string) (value : string) :
  ~ In name done ->
  dict_set (map (fun c => (JStr c, c ++ "_VALUE_" ++ int_str i)) done) (JStr name) value
  = List.app (map (fun c => (JStr c, c ++ "_VALUE_" ++ int_str i)) done)
      [(JStr name, value)].
Proof.
  induction done as [|c done IH]; intros Hfresh.
  - reflexivity.
  - cbn [map dict_set app].
    assert (Hne : String.eqb c name = false).
    { apply String.eqb_neq. intros ->. apply Hfresh. now left. }
    change (same_key (JStr c) (JStr name)) with (String.eqb c name).
    rewrite Hne, IH; [reflexivity|]. intros Hin. apply Hfresh. now right.
Qed.

(** Filling a row with names that are new and pairwise distinct appends
    them in order. *)
Lemma fill_distinct_names (i : Z) (names done : list string) :
  NoDup (done ++ names) ->
  fold_left
    (fun row col => dict_set row col (py_str col ++ "_VALUE_" ++ int_str i))
    (map JStr names)
    (map (fun c => (JStr c, c ++ "_VALUE_" ++ int_str i)) done)
  = map (fun c => (JStr c, c ++ "_VALUE_" ++ int_str i)) (done ++ names).
Proof.
  revert done. induction names as [|name names IH]; intros done Hnodup.
  - cbn [map fold_left]. now rewrite app_nil_r.
  - cbn [map fold_left py_str].
    rewrite dict_set_new_name.
    + change [(JStr name, name ++ "_VALUE_" ++ int_str i)]
        with (map (fun c => (JStr c, c ++ "_VALUE_" ++ int_str i)) [name]).
      rewrite <- map_app, IH.
      * now rewrite <- app_assoc.
      * now rewrite <- app_assoc.
    + apply NoDup_remove_2 in Hnodup. intros Hin. apply Hnodup.
      apply in_or_app. now left.
Qed.

(** With pairwise distinct names for [columns], a row lists every column
    once, in the order asked, each with the value [<name>_VALUE_<index>]. *)
Theorem table_row_distinct_names (names : list string) (i : Z) :
  NoDup names ->
  table_row (map JStr names) i =
  map (fun c => (JStr c, c ++ "_VALUE_" ++ int_str i)) names.
Proof. intros Hdistinct. exact (fill_distinct_names i names [] Hdistinct). Qed.

(** A column named twice appears once, at its first place. *)
Theorem table_row_repeated_name (names : list string) (name : string) (i : Z) :
  NoDup names -> In name names ->
  table_row (map JStr (names ++ [name])) i = table_row (map JStr names) i.
Proof.
  intros Hdistinct Hin. unfold table_row.
  rewrite map_app, fold_left_app.
  change (@nil (json * string))
    with (map (fun c => (JStr c, c ++ "_VALUE_" ++ int_str i)) []) at 1.
  rewrite (fill_distinct_names i names [] Hdistinct). cbn [map fold_left py_str app].
  change (@nil (json * string))
    with (map (fun c => (JStr c, c ++ "_VALUE_" ++ int_str i)) []).
  rewrite (fill_distinct_names i names [] Hdistinct). cbn [app].
  clear Hdistinct. induction names as [|c names IH]; [destruct Hin|].
  cbn [map dict_set]. change (same_key (JStr c) (JStr name)) with (String.eqb c name).
  destruct (String.eqb_spec c name) as [->|Hne]; [reflexivity|].
  rewrite IH; [reflexivity|]. destruct Hin as [Heq|Hin]; [contradiction|exact Hin].
Qed.

End Loops.

Section Steps.
Context `{PyRuntime}.

(** [enumerate] from an index on *)
Lemma enumerate_from_app {A : Type} (k : nat) (before after : list A) :
  combine (map Z.of_nat (seq k (List.length (before ++ after)))) (before ++ after)
  = List.app
      (combine (map Z.of_nat (seq k (List.length before))) before)
      (combine (map Z.of_nat (seq (k + List.length before) (List.length after))) after).
Proof.
  revert k. induction before as [|a before IH]; intros k.
  - cbn [app List.length seq map combine]. now rewrite Nat.add_0_r.
  - cbn [app List.length seq map combine]. rewrite IH.
    now rewrite Nat.add_succ_r.
Qed.

Lemma step_text_mapping (i : Z) (step : json) :
  is_dict step = true -> step_text (i, step) = Return (step_line i (step_fields step)).
Proof. destruct step; try discriminate. reflexivity. Qed.

Lemma step_text_not_mapping (i : Z) (step : json) :
  is_dict step = false ->
  step_text (i, step) = Raise (Builtin (NoAttribute (type_of step) "get")).
Proof. destruct step; try discriminate; reflexivity. Qed.

(** The branch of [sap_execute_transaction] on a dictionary of arguments *)
Lemma result_text_execute_transaction (akvs : list (string * json)) :
  result_text (JStr "sap_execute_transaction") (JDict akvs) =
  (let tcode := dict_get_or akvs "transaction_code" (JStr "VA01") in
   let steps := dict_get_or akvs "steps" (JList []) in
   items <- py_iter steps ;;
   executed_steps <- mapM step_text (enumerate items) ;;
   Return ("Executed transaction " ++ py_str tcode ++ " with "
             ++ int_str (Z.of_nat (List.length items)) ++ " steps: "
             ++ join "; " executed_steps)).
Proof. reflexivity. Qed.

(** With a list of dictionaries for [steps], [sap_execute_transaction]
    answers with the number of steps and one text for each step, numbered
    from 1 in the order given; a field a step lacks takes its default. *)
Theorem execute_transaction_steps (akvs : list (string * json)) (steps : list json) :
  dict_get_or akvs "steps" (JList []) = JList steps ->
  forallb is_dict steps = true ->
  result_text (JStr "sap_execute_transaction") (JDict akvs) =
  Return ("Executed transaction "
            ++ py_str (dict_get_or akvs "transaction_code" (JStr "VA01"))
            ++ " with " ++ int_str (Z.of_nat (List.length steps)) ++ " steps: "
            ++ join "; "
                 (map (fun i_step => step_line (fst i_step) (step_fields (snd i_step)))
                    (enumerate steps))).
Proof.
  intros Hsteps Hall.
  rewrite result_text_execute_transaction. cbv zeta. rewrite Hsteps.
  cbn [py_iter bind].
  rewrite (mapM_return _
             (fun i_step => step_line (fst i_step) (step_fields (snd i_step)))).
  - reflexivity.
  - intros [i step] Hin. apply step_text_mapping.
    apply in_combine_r in Hin. rewrite forallb_forall in Hall. now apply Hall.
Qed.

(** A step that is not a dictionary makes the whole call raise, at the
    first such step: the steps before it are not reported. *)
Theorem execute_transaction_bad_step
    (akvs : list (string * json)) (good rest : list json) (bad : json) :
  dict_get_or akvs "steps" (JList []) = JList (good ++ bad :: rest) ->
  forallb is_dict good = true ->
  is_dict bad = false ->
  result_text (JStr "sap_execute_transaction") (JDict akvs) =
  Raise (Builtin (NoAttribute (type_of bad) "get")).
Proof.
  intros Hsteps Hgood Hbad.
  rewrite result_text_execute_transaction. cbv zeta. rewrite Hsteps.
  cbn [py_iter bind]. unfold enumerate. rewrite enumerate_from_app.
  cbn [List.length seq map combine].
  rewrite (mapM_raise _
             (fun i_step => step_line (fst i_step) (step_fields (snd i_step)))
             _ _ _ (Builtin (NoAttribute (type_of bad) "get"))).
  - reflexivity.
  - intros [i step] Hin. apply step_text_mapping.
    apply in_combine_r in Hin. rewrite forallb_forall in Hgood. now apply Hgood.
  - now apply step_text_not_mapping.
Qed.

End Steps.

(** ** The catalog against the chain *)

Section Catalog.
Context `{PyRuntime}.

(** The names the catalog advertises are the registered ones. *)
Lemma advertised_iff_registered (name : json) :
  (exists descriptor, In descriptor tools /\ field descriptor "name" = Some name)
  <-> is_registered name = true.
Proof.
  unfold is_registered. rewrite existsb_exists. split.
  - intros (descriptor & Hin & Hname).
    apply (in_map (fun d => field d "name")) in Hin.
    rewrite catalog_names, Hname in Hin. apply in_map_iff in Hin.
    destruct Hin as (s & Heq & Hs). injection Heq as <-.
    exists s. split; [exact Hs|]. cbn [eq_str]. apply String.eqb_refl.
  - intros (s & Hs & Heq). apply eq_str_true in Heq. subst name.
    apply (in_map (fun s => Some (JStr s))) in Hs.
    rewrite <- catalog_names in Hs. apply in_map_iff in Hs.
    destruct Hs as (descriptor & Hname & Hin). now exists descriptor.
Qed.

(** What [tools/list] advertises is what [tools/call] knows: called
    without arguments, a name is answered by the text for an unknown tool
    exactly when no descriptor of the catalog carries it. *)
Theorem unknown_iff_not_advertised (name : json) :
  result_text name (JDict []) = Return (unknown_tool_text name)
  <-> ~ (exists descriptor,
          In descriptor tools /\ field descriptor "name" = Some name).
Proof.
  rewrite advertised_iff_registered. split.
  - intros Hunknown Hknown. exact (registered_is_known name Hknown Hunknown).
  - intros Hunknown. apply result_text_unknown.
    destruct (is_registered name); [contradiction|reflexivity].
Qed.

End Catalog.

(** ** The further theorems at sample inputs *)

Lemma handle_request_response_shape_witness :
  @handle_request Samples.runtime new_server (JDict Samples.request_foo)
  = (new_server,
     Return (Some (@method_not_found Samples.runtime (JInt 7) (JStr "foo"))))
  /\ field (@method_not_found Samples.runtime (JInt 7) (JStr "foo")) "jsonrpc"
     = Some (JStr "2.0").
Proof.
  split; [reflexivity|].
  exact (proj1 (@handle_request_response_shape Samples.runtime new_server new_server
                  Samples.request_foo _ eq_refl)).
Defined.

Lemma tool_call_params_not_mapping_witness :
  eq_str (request_method [("method", JStr "tools/call"); ("params", JInt 3); ("id", JInt 9)])
    "tools/call" = true
  /\ is_dict (request_params
                [("method", JStr "tools/call"); ("params", JInt 3); ("id", JInt 9)])
     = false
  /\ @handle_request Samples.runtime new_server
       (JDict [("method", JStr "tools/call"); ("params", JInt 3); ("id", JInt 9)])
     = (new_server,
        Return (Some
          (JDict
             [("jsonrpc", JStr "2.0"); ("id", JInt 9);
              ("error",
               JDict
                 [("code", JInt (-32602));
                  ("message", JStr "Invalid request parameters");
                  ("data", JStr "'int' object has no attribute 'get'")])]))).
Proof.
  split; [reflexivity|]. split; [reflexivity|].
  exact (@tool_call_params_not_mapping Samples.runtime new_server
           [("method", JStr "tools/call"); ("params", JInt 3); ("id", JInt 9)]
           eq_refl eq_refl).
Defined.

Lemma handle_tool_call_returns_one_text_witness :
  exists text : string,
    JDict [("content",
            JList [JDict [("type", JStr "text");
                          ("text", JStr "Navigated back (F3) in session default")]])]
    = JDict [("content", JList [JDict [("type", JStr "text"); ("text", JStr text)]])].
Proof.
  exact (@handle_tool_call_returns_one_text Samples.runtime
           (JDict [("name", JStr "sap_navigate_back")]) _ eq_refl).
Defined.

Lemma tool_call_arguments_not_mapping_witness :
  is_registered (JStr "sap_navigate") = true
  /\ is_dict (JStr "VA01") = false
  /\ @handle_tool_call Samples.runtime
       (JDict [("name", JStr "sap_navigate"); ("arguments", JStr "VA01")])
     = Raise (Builtin (NoAttribute TStr "get")).
Proof.
  split; [reflexivity|]. split; [reflexivity|].
  exact (@tool_call_arguments_not_mapping Samples.runtime
           [("name", JStr "sap_navigate"); ("arguments", JStr "VA01")]
           eq_refl eq_refl).
Defined.

Lemma tools_without_loops_always_answer_witness :
  eq_str (JStr "sap_set_table_cell") "sap_get_table_data" = false
  /\ eq_str (JStr "sap_set_table_cell") "sap_execute_transaction" = false
  /\ exists text : string,
       @result_text Samples.runtime (JStr "sap_set_table_cell")
         (JDict [("row", JList [JNull]); ("value", JDict [])])
       = Return text.
Proof.
  split; [reflexivity|]. split; [reflexivity|].
  exact (@tools_without_loops_always_answer Samples.runtime
           (JStr "sap_set_table_cell") [("row", JList [JNull]); ("value", JDict [])]
           eq_refl eq_refl).
Defined.

Lemma connect_text_ignores_credentials_witness :
  @result_text Samples.runtime (JStr "sap_connect")
    (JDict [("system_id", JStr "QAS"); ("username", JStr "alice");
            ("password", JStr "first")])
  = @result_text Samples.runtime (JStr "sap_connect")
      (JDict [("password", JStr "second"); ("system_id", JStr "QAS")]).
Proof.
  exact (@connect_text_ignores_credentials Samples.runtime
           [("system_id", JStr "QAS"); ("username", JStr "alice");
            ("password", JStr "first")]
           [("password", JStr "second"); ("system_id", JStr "QAS")]
           eq_refl eq_refl eq_refl eq_refl).
Defined.


Lemma table_data_columns_read_when_rows_witness :
  @py_iter (JInt 7) = Raise (Builtin (NotIterable TInt))
  /\ @result_text Samples.runtime (JStr "sap_get_table_data")
       (JDict [("row_count", JInt 1); ("columns", JInt 7)])
     = Raise (Builtin (NotIterable TInt)).
Proof.
  split; [reflexivity|].
  exact (@table_data_columns_read_when_rows Samples.runtime
           [("row_count", JInt 1); ("columns", JInt 7)] 0 1
           (Builtin (NotIterable TInt)) eq_refl eq_refl eq_refl).
Defined.

Lemma distinct_names_sample : NoDup ["MATNR"; "WERKS"].
Proof.
  constructor.
  - intros [Heq|[]]. discriminate Heq.
  - constructor; [intros []|constructor].
Defined.

Lemma table_row_distinct_names_witness :
  @table_row Samples.runtime (map JStr ["MATNR"; "WERKS"]) 3
  = [(JStr "MATNR", "MATNR_VALUE_3"); (JStr "WERKS", "WERKS_VALUE_3")].
Proof.
  exact (@table_row_distinct_names Samples.runtime ["MATNR"; "WERKS"] 3
           distinct_names_sample).
Defined.

Lemma table_row_repeated_name_witness :
  @table_row Samples.runtime (map JStr (["MATNR"; "WERKS"] ++ ["MATNR"])) 3
  = @table_row Samples.runtime (map JStr ["MATNR"; "WERKS"]) 3.
Proof.
  exact (@table_row_repeated_name Samples.runtime ["MATNR"; "WERKS"] "MATNR" 3
           distinct_names_sample (or_introl eq_refl)).
Defined.

Lemma execute_transaction_steps_witness :
  @result_text Samples.runtime (JStr "sap_execute_transaction")
    (JDict [("steps", JList [JDict [("action", JStr "input")]; JDict []])])
  = Return ("Executed transaction " ++ "VA01" ++ " with " ++ int_str 2 ++ " steps: "
              ++ join "; "
                   (map (fun i_step =>
                           @step_line Samples.runtime (fst i_step)
                             (step_fields (snd i_step)))
                      (enumerate [JDict [("action", JStr "input")]; JDict []]))).
Proof.
  exact (@execute_transaction_steps Samples.runtime
           [("steps", JList [JDict [("action", JStr "input")]; JDict []])]
           [JDict [("action", JStr "input")]; JDict []] eq_refl eq_refl).
Defined.

Lemma execute_transaction_bad_step_witness :
  @result_text Samples.runtime (JStr "sap_execute_transaction")
    (JDict [("steps", JList [JDict []; JStr "press"; JDict []])])
  = Raise (Builtin (NoAttribute TStr "get")).
Proof.
  exact (@execute_transaction_bad_step Samples.runtime
           [("steps", JList [JDict []; JStr "press"; JDict []])]
           [JDict []] [JDict []] (JStr "press") eq_refl eq_refl eq_refl).
Defined.

Lemma run_keeps_initialized_witness :
  initialized
    (fst (@run Samples.runtime {| initialized := true |}
            [Samples.line_initialize_list; "{oops"; Samples.line_tools_list]))
  = true.
Proof.
  exact (@run_keeps_initialized Samples.runtime
           [Samples.line_initialize_list; "{oops"; Samples.line_tools_list]
           {| initialized := true |} eq_refl).
Defined.
